(** * bg-server-mcp-shell: the session registry and its output buffers

    A shallow embedding of [mcp-shell-server.js]: the process-wide
    [sessions] map, the per-session [outputBuffer] arrays, the two PTY
    callbacks ([p.onData], [p.onExit]) and the six registered tools.

    Conventions of the embedding.
    - The server is single-threaded JavaScript: every tool handler and every
      PTY callback runs to completion, so each is a function on [State].
    - What a handler reads from outside the program (the platform, the
      process environment, [pty.spawn], [randomUUID()], the clock, whether
      [pty.kill()] throws) is an explicit argument.
    - A handler's reply is the [output] object it builds; the [content]
      field only repeats it as JSON text.  The diagnostics written with
      [console.error] and the [SIGINT] handler, which ends the process, are
      not part of the model.
    - Numbers that arrive in a request ([fromIndex], [cols], [rows]) are
      finite JavaScript numbers and are kept as rationals. *)

From Stdlib Require Import ZArith QArith Qround Ascii.
From stdpp Require Import gmap strings list fin_maps.

Local Open Scope string_scope.
Local Open Scope list_scope.
Local Open Scope nat_scope.

(** ** JavaScript values used by the server *)

(** A field that holds [null], [undefined] or a number. *)
Inductive JsNum :=
| JNull
| JUndefined
| JNumber (n : Z).

(** [signal] as node-pty reports it: a number, or [undefined]. *)
Definition ofSignal (signal : option Z) : JsNum :=
  match signal with
  | Some n => JNumber n
  | None => JUndefined
  end.

(** [ToIntegerOrInfinity] on a finite number: truncation towards zero. *)
Definition ToIntegerOrInfinity (x : Q) : Z :=
  if Qle_bool 0 x then Qfloor x else Qceiling x.

(** [Array.prototype.slice(start)] with [end] omitted. *)
Definition slice {A} (l : list A) (start : Q) : list A :=
  let len := Z.of_nat (length l) in
  let relativeStart := ToIntegerOrInfinity start in
  let k := if (relativeStart <? 0)%Z
           then Z.max (len + relativeStart) 0
           else Z.min relativeStart len in
  drop (Z.to_nat k) l.

(** [Array.prototype.push] and [Array.prototype.shift] (results dropped). *)
Definition push {A} (l : list A) (x : A) : list A := l ++ [x].
Definition shift {A} (l : list A) : list A := tail l.

(** [if (x)] on an optional string: [undefined] and the empty string are
    falsy. *)
Definition truthy (x : option string) : bool :=
  match x with
  | None => false
  | Some s => negb (String.eqb s "")
  end.

(** ** Data model *)

(** The entries of an [outputBuffer]. *)
Inductive OutputEvent :=
| Stdout (data : string) (timestamp : string)
| Exit (exitCode : Z) (signal : option Z) (timestamp : string).

(** The value stored in [sessions].  [pty] and [output] are references: the
    PTY object and the [outputBuffer] array are shared with the callbacks
    registered on the PTY, so the record holds their addresses. *)
Record Session := {
  pid : Z;
  pty : nat;
  cwd : string;
  cmd : string;
  args : list string;
  cols : Q;
  rows : Q;
  startedAt : string;
  output : nat;
  exitCode : JsNum;
  exitSignal : JsNum;
  isRunning : bool
}.

(** Calls on a PTY object that returned normally. *)
Inductive PtyCall :=
| Write (handle : nat) (data : string)
| Kill (handle : nat).

(** The program state: the [sessions] map, every [outputBuffer] array
    allocated so far (array [n] belongs to the [n]-th PTY spawned), and the
    calls made on PTY objects, oldest first. *)
Record State := {
  sessions : gmap string Session;
  heap : list (list OutputEvent);
  ptyCalls : list PtyCall
}.

Definition init : State :=
  {| sessions := ∅; heap := []; ptyCalls := [] |}.

(** The array at address [r]; an address never allocated reads as empty. *)
Definition buffer (st : State) (r : nat) : list OutputEvent :=
  default [] (heap st !! r).

#[warnings="-abstract-large-number"]
Definition maxBufferSize : nat := 10000.

(** ** The PTY callbacks *)

(** [p.onData]: the closure holds the array itself, not the session. *)
Definition onData (buf : nat) (data now : string) (st : State) : State :=
  match heap st !! buf with
  | None => st
  | Some b =>
      let b1 := push b (Stdout data now) in
      let b2 := if (maxBufferSize <? length b1)%nat then shift b1 else b1 in
      {| sessions := sessions st;
         heap := <[buf := b2]> (heap st);
         ptyCalls := ptyCalls st |}
  end.

Definition exited (s : Session) (code : Z) (signal : option Z) : Session :=
  {| pid := pid s; pty := pty s; cwd := cwd s; cmd := cmd s; args := args s;
     cols := cols s; rows := rows s; startedAt := startedAt s;
     output := output s;
     exitCode := JNumber code;
     exitSignal := ofSignal signal;
     isRunning := false |}.

(** [p.onExit]: the closure holds [sessionId] and looks the session up. *)
Definition onExit (sessionId : string) (code : Z) (signal : option Z)
    (now : string) (st : State) : State :=
  match sessions st !! sessionId with
  | Some s =>
      {| sessions := <[sessionId := exited s code signal]> (sessions st);
         heap := alter (fun b => push b (Exit code signal now)) (output s) (heap st);
         ptyCalls := ptyCalls st |}
  | None => st
  end.

(** ** Replies *)

(** How an [async] handler ends: its promise resolves with a reply, or the
    handler throws and the promise is rejected. *)
Inductive Completion (A : Type) :=
| Resolved (reply : A)
| Rejected (e : string).
Arguments Resolved {A} reply.
Arguments Rejected {A} e.

(** A reply object: [{ ok: true, ... }] or [{ ok: false, error }]. *)
Inductive Reply (A : Type) :=
| Ok (fields : A)
| Error (error : string).
Arguments Ok {A} fields.
Arguments Error {A} error.

(** Whether a call into node-pty returns or throws; [e] is [String(e)]. *)
Inductive CallOutcome :=
| Returns
| Throws (e : string).

(** ** startProcess *)

Record StartRequest := {
  req_cmd : string;
  req_args : option (list string);
  req_cwd : option string;
  req_env : option (gmap string string);
  req_cols : option Q;
  req_rows : option Q;
  req_shellOnWindows : option bool
}.

(** The options object handed to [pty.spawn]. *)
Record PtyOptions := {
  opt_name : string;
  opt_cols : Q;
  opt_rows : Q;
  opt_cwd : string;
  opt_env : gmap string string
}.

Inductive SpawnResult :=
| Spawned (pid : Z)
| SpawnThrows (e : string).

(** What one [startProcess] call observes of its surroundings. *)
Record Host := {
  os_platform : string;
  process_cwd : string;
  process_env : gmap string string;
  pty_spawn : string -> list string -> PtyOptions -> SpawnResult;
  randomUUID : string;
  date_now : string
}.

Record StartFields := {
  start_sessionId : string;
  start_pid : Z
}.

Definition isWin (h : Host) : bool := String.eqb (os_platform h) "win32".

Definition viaShell (h : Host) (req : StartRequest) : bool :=
  isWin h && default false (req_shellOnWindows req).

Definition spawnExe (h : Host) (req : StartRequest) : string :=
  if viaShell h req then "powershell.exe" else req_cmd req.

Definition spawnArgv (h : Host) (req : StartRequest) : list string :=
  let args := default [] (req_args req) in
  if viaShell h req
  then ["-NoLogo"; "-Command"; req_cmd req +:+ " " +:+ String.concat " " args]
  else args.

(** [{ ...process.env, ...env }]: the later spread wins, and stdpp's union
    prefers its left operand. *)
Definition spread (first second : gmap string string) : gmap string string :=
  second ∪ first.

Definition spawnOptions (h : Host) (req : StartRequest) : PtyOptions :=
  {| opt_name := "xterm-color";
     opt_cols := default 120%Q (req_cols req);
     opt_rows := default 30%Q (req_rows req);
     opt_cwd := default (process_cwd h) (req_cwd req);
     opt_env := spread (process_env h) (default ∅ (req_env req)) |}.

Definition startProcess (h : Host) (req : StartRequest) (st : State)
    : State * Completion (Reply StartFields) :=
  let exe := spawnExe h req in
  let argv := spawnArgv h req in
  let opts := spawnOptions h req in
  match pty_spawn h exe argv opts with
  | SpawnThrows e => (st, Rejected e)
  | Spawned p =>
      let sessionId := randomUUID h in
      let outputBuffer := length (heap st) in
      let s := {| pid := p; pty := outputBuffer; cwd := opt_cwd opts;
                  cmd := exe; args := argv;
                  cols := opt_cols opts; rows := opt_rows opts;
                  startedAt := date_now h;
                  output := outputBuffer;
                  exitCode := JNull; exitSignal := JNull;
                  isRunning := true |} in
      ({| sessions := <[sessionId := s]> (sessions st);
          heap := heap st ++ [[]];
          ptyCalls := ptyCalls st |},
       Resolved (Ok {| start_sessionId := sessionId; start_pid := p |}))
  end.

(** ** writeInput *)

Definition writeInput (sessionId data : string) (write : CallOutcome)
    (st : State) : State * Completion (Reply unit) :=
  match sessions st !! sessionId with
  | None => (st, Resolved (Error "Session not found"))
  | Some s =>
      match write with
      | Throws e => (st, Rejected e)
      | Returns =>
          ({| sessions := sessions st; heap := heap st;
              ptyCalls := ptyCalls st ++ [Write (pty s) data] |},
           Resolved (Ok tt))
      end
  end.

(** ** getSessionOutput *)

Record OutputFields := {
  out_sessionId : string;
  out_isRunning : bool;
  out_exitCode : JsNum;
  out_exitSignal : JsNum;
  out_output : list OutputEvent;
  out_totalLines : nat
}.

Definition getSessionOutput (sessionId : string) (fromIndex : option Q)
    (st : State) : Reply OutputFields :=
  match sessions st !! sessionId with
  | None => Error "Session not found"
  | Some s =>
      let outputSlice := slice (buffer st (output s)) (default 0%Q fromIndex) in
      Ok {| out_sessionId := sessionId;
            out_isRunning := isRunning s;
            out_exitCode := exitCode s;
            out_exitSignal := exitSignal s;
            out_output := outputSlice;
            out_totalLines := length (buffer st (output s)) |}
  end.

(** ** stopProcess *)

Record StopFields := { killed : bool }.

Definition stopped (s : Session) : Session :=
  {| pid := pid s; pty := pty s; cwd := cwd s; cmd := cmd s; args := args s;
     cols := cols s; rows := rows s; startedAt := startedAt s;
     output := output s;
     exitCode := exitCode s;
     exitSignal := exitSignal s;
     isRunning := false |}.

Definition stopProcess (sessionId : string) (kill : CallOutcome) (st : State)
    : State * Reply StopFields :=
  match sessions st !! sessionId with
  | None => (st, Error "Session not found")
  | Some s =>
      match kill with
      | Returns =>
          ({| sessions := <[sessionId := stopped s]> (sessions st);
              heap := heap st;
              ptyCalls := ptyCalls st ++ [Kill (pty s)] |},
           Ok {| killed := true |})
      | Throws e => (st, Error e)
      end
  end.

(** ** cleanupSessions *)

Definition running (entry : string * Session) : Prop :=
  isRunning entry.2 = true.

#[local] Instance running_dec entry : Decision (running entry).
Proof. unfold running. apply _. Defined.

Definition cleanupSessions (sessionId : option string) (st : State)
    : State * Reply nat :=
  if truthy sessionId then
    let id := default "" sessionId in
    match sessions st !! id with
    | None => (st, Error "Session not found")
    | Some s =>
        if isRunning s then (st, Error "Session is still running")
        else ({| sessions := delete id (sessions st);
                 heap := heap st; ptyCalls := ptyCalls st |},
              Ok 1%nat)
    end
  else
    let cleaned := size (filter (fun entry => ¬ running entry) (sessions st)) in
    ({| sessions := filter running (sessions st);
        heap := heap st; ptyCalls := ptyCalls st |},
     Ok cleaned).

(** ** listSessions *)

Record Summary := {
  sum_sessionId : string;
  sum_pid : Z;
  sum_cmd : string;
  sum_args : list string;
  sum_cwd : string;
  sum_isRunning : bool;
  sum_exitCode : JsNum;
  sum_startedAt : string;
  sum_outputLines : nat
}.

(** The summaries, keyed by session id (the reply lists them in the map's
    insertion order, which the model does not keep). *)
Definition listSessions (st : State) : gmap string Summary :=
  map_imap (fun id s =>
    Some {| sum_sessionId := id; sum_pid := pid s; sum_cmd := cmd s;
            sum_args := args s; sum_cwd := cwd s;
            sum_isRunning := isRunning s; sum_exitCode := exitCode s;
            sum_startedAt := startedAt s;
            sum_outputLines := length (buffer st (output s)) |})
    (sessions st).

(** ** Runs of the server *)

(** Everything that can happen to the registry: a tool call, or a callback
    fired by some PTY. *)
Inductive Action :=
| AStart (h : Host) (req : StartRequest)
| AData (buf : nat) (data now : string)
| AExit (sessionId : string) (code : Z) (signal : option Z) (now : string)
| AWrite (sessionId data : string) (write : CallOutcome)
| AGetOutput (sessionId : string) (fromIndex : option Q)
| AList
| AStop (sessionId : string) (kill : CallOutcome)
| ACleanup (sessionId : option string).

Definition exec (a : Action) (st : State) : State :=
  match a with
  | AStart h req => (startProcess h req st).1
  | AData buf data now => onData buf data now st
  | AExit sessionId code signal now => onExit sessionId code signal now st
  | AWrite sessionId data write => (writeInput sessionId data write st).1
  | AGetOutput _ _ => st
  | AList => st
  | AStop sessionId kill => (stopProcess sessionId kill st).1
  | ACleanup sessionId => (cleanupSessions sessionId st).1
  end.

(** Oldest action first. *)
Fixpoint run (acts : list Action) (st : State) : State :=
  match acts with
  | [] => st
  | a :: rest => run rest (exec a st)
  end.

(** [randomUUID()] returns a 36-character string, never the empty one. *)
Definition wf_action (a : Action) : Prop :=
  match a with
  | AStart h _ => randomUUID h ≠ ""
  | _ => True
  end.

Inductive reachable : State -> Prop :=
| reachable_init : reachable init
| reachable_exec a st : reachable st -> wf_action a -> reachable (exec a st).

(** The event that action [a], taken in state [st], pushes onto array [r],
    if any: a data callback bound to [r], or the exit callback of a session
    whose [output] is [r]. *)
Definition pushed (r : nat) (a : Action) (st : State) : list OutputEvent :=
  match a with
  | AData buf data now =>
      if bool_decide (buf = r) && bool_decide (r < length (heap st))
      then [Stdout data now] else []
  | AExit sessionId code signal now =>
      match sessions st !! sessionId with
      | Some s =>
          if bool_decide (output s = r) && bool_decide (r < length (heap st))
          then [Exit code signal now] else []
      | None => []
      end
  | _ => []
  end.

(** Every event ever pushed onto array [r] along a run, oldest first; its
    length is the cumulative number of appends. *)
Fixpoint history (r : nat) (acts : list Action) (st : State)
    : list OutputEvent :=
  match acts with
  | [] => []
  | a :: rest => pushed r a st ++ history r rest (exec a st)
  end.

(** The fields of a successful reply. *)
Definition fields {A} (r : Reply A) : option A :=
  match r with
  | Ok f => Some f
  | Error _ => None
  end.

(** ** A sample host *)

Definition demoHost (uuid : string) : Host :=
  {| os_platform := "linux";
     process_cwd := "/srv";
     process_env := {[ "PATH" := "/usr/bin"; "TERM" := "xterm" ]};
     pty_spawn := fun _ _ _ => Spawned 4242;
     randomUUID := uuid;
     date_now := "2025-01-01T00:00:00.000Z" |}.

Definition demoRequest : StartRequest :=
  {| req_cmd := "cat"; req_args := None; req_cwd := None; req_env := None;
     req_cols := None; req_rows := None; req_shellOnWindows := None |}.

Definition demoId : string := "3f0c1d52-7a41-4e0b-9c55-2b8de3a1f6aa".
Definition demoStart : Action := AStart (demoHost demoId) demoRequest.


Definition demoSession : Session :=
  {| pid := 4242; pty := 0; cwd := "/srv"; cmd := "cat"; args := [];
     cols := 120; rows := 30; startedAt := "2025-01-01T00:00:00.000Z";
     output := 0; exitCode := JNull; exitSignal := JNull; isRunning := true |}.

(** A session that received more chunks than the buffer keeps. *)
Definition chatty (n : nat) : list Action :=
  demoStart :: replicate n (AData 0 "x" "t").

(** A finite JavaScript number that is an integer. *)
Definition ofNat (n : nat) : Q := inject_Z (Z.of_nat n).

(** ** Wait mode *)

Module WaitMode.









End WaitMode.


(** ** Session life cycle *)

(** The states a session record is found in: running, stopped by
    [stopProcess] before the exit callback has fired, and exited. *)
Definition lifecycle (s : Session) : Prop :=
  (isRunning s = true /\ exitCode s = JNull /\ exitSignal s = JNull) \/
  (isRunning s = false /\ exitCode s = JNull /\ exitSignal s = JNull) \/
  (isRunning s = false /\ exitCode s <> JNull /\ exitSignal s <> JNull).

(** The two states of the specification's data model. *)
Definition lifecycle_two_states (s : Session) : Prop :=
  (isRunning s = true /\ exitCode s = JNull /\ exitSignal s = JNull) \/
  (isRunning s = false /\ exitCode s <> JNull /\ exitSignal s <> JNull).

(** The registry after [id] has been removed and nothing else touched. *)
Definition removed (id : string) (st : State) : State :=
  {| sessions := delete id (sessions st);
     heap := heap st;
     ptyCalls := ptyCalls st |}.

(** A host on which the PTY cannot be allocated in a missing directory. *)
Definition strictHost : Host :=
  {| os_platform := "linux";
     process_cwd := "/srv";
     process_env := {[ "PATH" := "/usr/bin" ]};
     pty_spawn := fun _ _ opts =>
       if String.eqb (opt_cwd opts) "/non-existent-directory-xyz"
       then SpawnThrows "Error: chdir() failed"
       else Spawned 4243;
     randomUUID := "9b2f6c1e-0d4a-4c3b-8e7f-5a6b7c8d9e0f";
     date_now := "2025-01-01T00:00:01.000Z" |}.

Definition badCwdRequest : StartRequest :=
  {| req_cmd := "echo"; req_args := Some ["test"];
     req_cwd := Some "/non-existent-directory-xyz"; req_env := None;
     req_cols := None; req_rows := None; req_shellOnWindows := None |}.

(** ** References, launch parameters and markers *)

(** Every registered record points at an allocated array, and its PTY is the
    one whose data callback feeds that array. *)
Definition allocated (st : State) : Prop :=
  forall (id : string) (s : Session),
    sessions st !! id = Some s ->
    output s < length (heap st) /\ pty s = output s.

(** No array is the [output] of two registered records. *)
Definition unshared (st : State) : Prop :=
  forall (id1 id2 : string) (s1 s2 : Session),
    sessions st !! id1 = Some s1 ->
    sessions st !! id2 = Some s2 ->
    output s1 = output s2 -> id1 = id2.

Definition handle (c : PtyCall) : nat :=
  match c with
  | Write h _ => h
  | Kill h => h
  end.

(** The fields of a record that are written once, by [startProcess]. *)
Definition launch (s : Session)
    : Z * nat * string * string * list string * Q * Q * string * nat :=
  (pid s, pty s, cwd s, cmd s, args s, cols s, rows s, startedAt s, output s).

(** Whether an action is a [startProcess] call that is issued [id]. *)
Definition starts (id : string) (a : Action) : Prop :=
  match a with
  | AStart h _ => randomUUID h = id
  | _ => False
  end.

(** How a record may differ from an earlier one of the same session. *)
Definition evolves (s s' : Session) : Prop :=
  launch s' = launch s /\
  (isRunning s = false -> isRunning s' = false) /\
  (exitCode s <> JNull -> exitCode s' <> JNull).

Definition isExit (e : OutputEvent) : bool :=
  match e with
  | Exit _ _ _ => true
  | Stdout _ _ => false
  end.

(** The number of exit markers among some events. *)
Fixpoint exitMarkers (l : list OutputEvent) : nat :=
  match l with
  | [] => 0
  | e :: rest => (if isExit e then 1 else 0) + exitMarkers rest
  end.

(** ** The test client's line framing *)

Module TestClient.

(** [s.split('\n')]: the pieces between line feeds; never the empty array. *)
Fixpoint split (s : string) : list string :=
  match s with
  | EmptyString => [""]
  | String c rest =>
      if Ascii.eqb c "010"%char then "" :: split rest
      else match split rest with
           | piece :: pieces => String c piece :: pieces
           | [] => [String c ""]
           end
  end.

(** [lines.pop()]: the array without its last element, and that element
    ([undefined] for the empty array is rendered as the empty string; [split]
    never produces that array). *)
Fixpoint pop (lines : list string) : list string * string :=
  match lines with
  | [] => ([], "")
  | x :: rest =>
      match rest with
      | [] => ([], x)
      | _ :: _ => let (l, b) := pop rest in (x :: l, b)
      end
  end.

(** The [data] listener on the server's stdout, up to the lines its loop
    runs over (the loop then skips blank lines and hands the others to
    [JSON.parse]): the decoded chunk is appended to the buffer, complete
    lines are taken off, the unfinished rest is the new buffer. *)
Definition onStdout (responseBuffer data : string) : list string * string :=
  pop (split (responseBuffer +:+ data)).

(** The listener over successive [data] events: all lines handed on, in
    order, and the final buffer.  Each chunk is a [Buffer] and is decoded on
    its own by [data.toString()], which belongs to the runtime and is taken
    as the parameter [toString]. *)
Fixpoint feed (toString : list Byte.byte -> string) (responseBuffer : string)
    (chunks : list (list Byte.byte)) : list string * string :=
  match chunks with
  | [] => ([], responseBuffer)
  | data :: rest =>
      let (lines, b) := onStdout responseBuffer (toString data) in
      let (more, b') := feed toString b rest in
      (lines ++ more, b')
  end.

(** Two ways of cutting a short output: "ab", "c\nd", "e\n" and "he",
    "y\nyo", "u\n", as bytes. *)
Definition abChunks : list (list Byte.byte) :=
  [[Byte.x61; Byte.x62]; [Byte.x63; Byte.x0a; Byte.x64];
   [Byte.x65; Byte.x0a]].

Definition heyChunks : list (list Byte.byte) :=
  [[Byte.x68; Byte.x65]; [Byte.x79; Byte.x0a; Byte.x79; Byte.x6f];
   [Byte.x75; Byte.x0a]].

(** The texts the chunks decode to, one after the other. *)
Definition decoded (toString : list Byte.byte -> string)
    (chunks : list (list Byte.byte)) : string :=
  String.concat "" (map toString chunks).

(** [JSON.stringify(request) + '\n'], for each request in turn. *)
Fixpoint framed (messages : list string) : string :=
  match messages with
  | [] => ""
  | m :: rest => m +:+ String "010"%char (framed rest)
  end.

Fixpoint lineFree (s : string) : Prop :=
  match s with
  | EmptyString => True
  | String c rest => Ascii.eqb c "010"%char = false /\ lineFree rest
  end.

End TestClient.

(** [startProcess] makes its spawn call with [exe], [argv] and [opts], and
    what it does follows from what that call does: if the call returns a
    PTY with pid [p], the reply carries [p] and the record stored under the
    new id holds [p], [exe], [argv] and the working directory of [opts]; if
    the call throws, the handler is rejected with that error and the state
    is as before. *)
Definition spawnsWith (h : Host) (req : StartRequest) (st : State)
    (exe : string) (argv : list string) (opts : PtyOptions) : Prop :=
  (forall p : Z,
     pty_spawn h exe argv opts = Spawned p ->
     (startProcess h req st).2
       = Resolved (Ok {| start_sessionId := randomUUID h; start_pid := p |}) /\
     exists s : Session,
       sessions (startProcess h req st).1 !! randomUUID h = Some s /\
       pid s = p /\ cmd s = exe /\ args s = argv /\ cwd s = opt_cwd opts) /\
  (forall e : string,
     pty_spawn h exe argv opts = SpawnThrows e ->
     startProcess h req st = (st, Rejected e)).

(** * Properties *)

(** Case analysis on an action, with the names the proofs below use. *)
Ltac action_cases a :=
  destruct a as [h req|buf data now|sid code sg now|sid data w|sid fi|
                 |sid k|sid].

(** ** Arrays *)

Lemma ToIntegerOrInfinity_ofNat (n : nat) :
  ToIntegerOrInfinity (ofNat n) = Z.of_nat n.
Proof.
  unfold ToIntegerOrInfinity, ofNat.
  destruct (Qle_bool 0 (inject_Z (Z.of_nat n))).
  - apply Qfloor_Z.
  - apply Qceiling_Z.
Qed.

Lemma slice_ofNat {A} (l : list A) (n : nat) : slice l (ofNat n) = drop n l.
Proof.
  unfold slice. rewrite ToIntegerOrInfinity_ofNat.
  destruct (Z.ltb_spec (Z.of_nat n) 0) as [Hneg|_]; [lia|].
  destruct (decide (n ≤ length l)%nat) as [Hle|Hgt].
  - rewrite Z.min_l by lia. by rewrite Nat2Z.id.
  - rewrite Z.min_r by lia. rewrite Nat2Z.id.
    rewrite !drop_ge; [done | lia | lia].
Qed.

Lemma slice_zero {A} (l : list A) (x : Q) :
  ToIntegerOrInfinity x = 0%Z -> slice l x = l.
Proof.
  intros Hx. unfold slice. rewrite Hx. simpl.
  rewrite Z.min_l by lia. done.
Qed.



(** ** The registry under each handler *)

Lemma reachable_run (acts : list Action) (st : State) :
  reachable st -> Forall wf_action acts -> reachable (run acts st).
Proof.
  revert st. induction acts as [|a rest IH]; intros st Hst Hwf; simpl.
  - done.
  - inversion Hwf; subst. apply IH; [|done]. by constructor.
Qed.

(** Nothing is ever registered under the empty string. *)
Lemma reachable_ids_nonempty (st : State) :
  reachable st -> sessions st !! "" = None.
Proof.
  induction 1 as [|a st Hst IH Hwf]; [done|].
  action_cases a;
    simpl in *; try done.
  - unfold startProcess. destruct (pty_spawn h _ _ _); simpl; [|done].
    by rewrite lookup_insert_ne.
  - unfold onData. by destruct (heap st !! buf).
  - unfold onExit. destruct (sessions st !! sid) eqn:Hs; simpl; [|done].
    rewrite lookup_insert_ne; [done|]. intros ->. congruence.
  - unfold writeInput. destruct (sessions st !! sid); [|done]. by destruct w.
  - unfold stopProcess. destruct (sessions st !! sid) eqn:Hs; [|done].
    destruct k; simpl; [|done].
    rewrite lookup_insert_ne; [done|]. intros ->. congruence.
  - unfold cleanupSessions. destruct (truthy sid); simpl.
    + destruct (sessions st !! default "" sid); [|done].
      destruct (isRunning _); simpl; [done|].
      rewrite lookup_delete_None. by right.
    + rewrite map_lookup_filter_None. by left.
Qed.

(** ** Output buffers along a run *)

Lemma shift_drop {A} (l : list A) : shift l = drop 1 l.
Proof. by destruct l. Qed.

Lemma buffer_alloc (st : State) (r : nat) :
  default [] ((heap st ++ [[]]) !! r) = buffer st r.
Proof.
  unfold buffer. destruct (decide (r < length (heap st))%nat) as [Hlt|Hge].
  - by rewrite lookup_app_l.
  - rewrite lookup_app_r by lia. rewrite (lookup_ge_None_2 (heap st)) by lia.
    by destruct (r - length (heap st))%nat.
Qed.

Lemma buffer_mk ss hp pc (r : nat) :
  buffer {| sessions := ss; heap := hp; ptyCalls := pc |} r
  = default [] (hp !! r).
Proof. done. Qed.

Lemma buffer_lookup (st : State) (r : nat) (b : list OutputEvent) :
  heap st !! r = Some b -> buffer st r = b.
Proof. unfold buffer. by intros ->. Qed.

Lemma buffer_unallocated (st : State) (r : nat) :
  heap st !! r = None -> buffer st r = [].
Proof. unfold buffer. by intros ->. Qed.

(** One action changes array [r] by the event it pushes, less at most one
    event shifted out at the front. *)
Lemma buffer_exec (a : Action) (st : State) (r : nat) :
  exists k : nat,
    (k <= length (buffer st r ++ pushed r a st))%nat /\
    buffer (exec a st) r = drop k (buffer st r ++ pushed r a st) /\
    ((length (buffer st r ++ pushed r a st) <= maxBufferSize)%nat -> k = 0%nat).
Proof.
  assert (Hsame : forall st' p, heap st' = heap st -> p = [] ->
            exists k : nat,
              (k <= length (buffer st r ++ p))%nat /\
              buffer st' r = drop k (buffer st r ++ p) /\
              ((length (buffer st r ++ p) <= maxBufferSize)%nat -> k = 0%nat)).
  { intros st' p Hheap ->. exists 0%nat. rewrite app_nil_r.
    unfold buffer. rewrite Hheap. split_and!; [lia | done | done]. }
  action_cases a;
    simpl exec.
  - unfold startProcess. destruct (pty_spawn h _ _ _); simpl; [|by apply Hsame].
    exists 0%nat. rewrite app_nil_r, buffer_mk, buffer_alloc.
    split_and!; [lia | done | done].
  - unfold onData. simpl pushed. destruct (heap st !! buf) as [b|] eqn:Hb.
    + destruct (decide (buf = r)) as [->|Hne].
      * pose proof (lookup_lt_Some _ _ _ Hb) as Hlt.
        rewrite (buffer_lookup st r b Hb), buffer_mk.
        rewrite !bool_decide_eq_true_2 by done. simpl.
        rewrite list_lookup_insert_eq by done. simpl. unfold push.
        destruct (Nat.ltb_spec maxBufferSize (length (b ++ [Stdout data now]))).
        -- exists 1%nat. rewrite shift_drop.
           split_and!; [rewrite length_app; simpl; lia | done | lia].
        -- exists 0%nat. split_and!; [lia | done | done].
      * rewrite (bool_decide_eq_false_2 (buf = r)) by done. simpl.
        exists 0%nat. rewrite app_nil_r, buffer_mk.
        rewrite list_lookup_insert_ne by done.
        split_and!; [lia | done | done].
    + apply Hsame; [done|]. simpl.
      destruct (decide (buf = r)) as [->|Hne].
      * apply lookup_ge_None_1 in Hb.
        rewrite (bool_decide_eq_false_2 (r < _)%nat) by lia.
        by rewrite andb_false_r.
      * by rewrite (bool_decide_eq_false_2 (buf = r)).
  - unfold onExit. simpl pushed.
    destruct (sessions st !! sid) as [s|] eqn:Hs; [|by apply Hsame].
    exists 0%nat. rewrite buffer_mk.
    destruct (decide (output s = r)) as [<-|Hne].
    + rewrite list_lookup_alter_eq.
      destruct (heap st !! output s) as [b|] eqn:Hb.
      * pose proof (lookup_lt_Some _ _ _ Hb) as Hlt.
        rewrite (buffer_lookup _ _ _ Hb).
        rewrite !bool_decide_eq_true_2 by done. simpl.
        split_and!; [lia | done | done].
      * rewrite (buffer_unallocated _ _ Hb). apply lookup_ge_None_1 in Hb.
        rewrite (bool_decide_eq_false_2 (_ < _)%nat) by lia.
        rewrite andb_false_r. simpl. split_and!; [lia | done | done].
    + rewrite list_lookup_alter_ne by done.
      rewrite (bool_decide_eq_false_2 (output s = r)) by done. simpl.
      rewrite app_nil_r. split_and!; [lia | done | done].
  - apply Hsame; [|done]. unfold writeInput.
    destruct (sessions st !! sid); [|done]. by destruct w.
  - by apply Hsame.
  - by apply Hsame.
  - apply Hsame; [|done]. unfold stopProcess.
    destruct (sessions st !! sid); [|done]. by destruct k.
  - apply Hsame; [|done]. unfold cleanupSessions.
    destruct (truthy sid); [|done].
    destruct (sessions st !! default "" sid); [|done].
    by destruct (isRunning _).
Qed.

(** What an array retains is always a suffix of what was pushed onto it:
    eviction only ever removes the oldest events. *)
Lemma buffer_run (acts : list Action) (st : State) (r : nat) :
  exists k : nat,
    (k <= length (buffer st r ++ history r acts st))%nat /\
    buffer (run acts st) r = drop k (buffer st r ++ history r acts st) /\
    ((length (buffer st r ++ history r acts st) <= maxBufferSize)%nat ->
     k = 0%nat).
Proof.
  revert st. induction acts as [|a rest IH]; intros st; simpl.
  - exists 0%nat. rewrite app_nil_r. split_and!; [lia | done | done].
  - destruct (buffer_exec a st r) as (k1 & Hk1 & Hb1 & Hz1).
    destruct (IH (exec a st)) as (k2 & Hk2 & Hb2 & Hz2).
    rewrite Hb1, <- drop_app_le in Hb2 by done.
    rewrite drop_drop, <- app_assoc in Hb2.
    rewrite Hb1 in Hk2, Hz2.
    rewrite length_app, length_drop, length_app in Hk2, Hz2.
    rewrite !length_app in Hk1, Hz1. rewrite !length_app.
    exists (k1 + k2)%nat. split_and!; [lia | done |].
    intros Hle. rewrite Hz1 in * by lia. rewrite Hz2; lia.
Qed.

Lemma run_app (acts1 acts2 : list Action) (st : State) :
  run (acts1 ++ acts2) st = run acts2 (run acts1 st).
Proof. revert st. induction acts1 as [|a rest IH]; intros st; simpl; auto. Qed.

Lemma history_app (r : nat) (acts1 acts2 : list Action) (st : State) :
  history r (acts1 ++ acts2) st
  = history r acts1 st ++ history r acts2 (run acts1 st).
Proof.
  revert st. induction acts1 as [|a rest IH]; intros st; simpl; [done|].
  by rewrite IH, app_assoc.
Qed.

(** What [getSessionOutput] reports is the array as it is now. *)
Lemma getSessionOutput_registered (st : State) (id : string) (s : Session)
    (fromIndex : option Q) :
  sessions st !! id = Some s ->
  getSessionOutput id fromIndex st
  = Ok {| out_sessionId := id;
          out_isRunning := isRunning s;
          out_exitCode := exitCode s;
          out_exitSignal := exitSignal s;
          out_output := slice (buffer st (output s)) (default 0%Q fromIndex);
          out_totalLines := length (buffer st (output s)) |}.
Proof. intros Hs. unfold getSessionOutput. by rewrite Hs. Qed.

Lemma totalLines_retained (acts : list Action) (id : string) (s : Session)
    (fromIndex : option Q) :
  sessions (run acts init) !! id = Some s ->
  exists (f : OutputFields) (evicted : nat),
    getSessionOutput id fromIndex (run acts init) = Ok f /\
    out_totalLines f = length (buffer (run acts init) (output s)) /\
    buffer (run acts init) (output s)
      = drop evicted (history (output s) acts init) /\
    out_totalLines f + evicted = length (history (output s) acts init) /\
    (length (history (output s) acts init) <= maxBufferSize ->
     out_totalLines f = length (history (output s) acts init)).
Proof.
  intros Hs. rewrite (getSessionOutput_registered _ _ _ _ Hs).
  destruct (buffer_run acts init (output s)) as (k & Hk & Hb & Hz).
  change (buffer init (output s)) with (@nil OutputEvent) in Hk, Hb, Hz.
  simpl in Hk, Hb, Hz.
  eexists _, k. split; [done|]. simpl. rewrite Hb, length_drop.
  split_and!; [done | done | lia |]. intros Hle. rewrite Hz by done. lia.
Qed.

Lemma poll_incremental (acts1 acts2 : list Action) (id : string)
    (s1 s2 : Session) (f1 : OutputFields) (fromIndex : option Q) :
  sessions (run acts1 init) !! id = Some s1 ->
  sessions (run (acts1 ++ acts2) init) !! id = Some s2 ->
  output s2 = output s1 ->
  length (history (output s1) (acts1 ++ acts2) init) <= maxBufferSize ->
  getSessionOutput id fromIndex (run acts1 init) = Ok f1 ->
  exists f2 : OutputFields,
    getSessionOutput id (Some (ofNat (out_totalLines f1)))
      (run (acts1 ++ acts2) init) = Ok f2 /\
    out_output f2 = history (output s1) acts2 (run acts1 init).
Proof.
  intros Hs1 Hs2 Hout Hle Hf1.
  rewrite (getSessionOutput_registered _ _ _ _ Hs1) in Hf1.
  injection Hf1 as <-. simpl.
  rewrite (getSessionOutput_registered _ _ _ _ Hs2), Hout.
  eexists. split; [done|]. simpl. rewrite slice_ofNat.
  destruct (buffer_run (acts1 ++ acts2) init (output s1)) as (k & _ & Hb & Hz).
  destruct (buffer_run acts1 init (output s1)) as (k1 & _ & Hb1 & Hz1).
  change (buffer init (output s1)) with (@nil OutputEvent) in Hb, Hz, Hb1, Hz1.
  simpl in Hb, Hz, Hb1, Hz1.
  rewrite history_app, length_app in Hle.
  rewrite Hz in Hb by (rewrite history_app, length_app; lia).
  rewrite Hz1 in Hb1 by lia. simpl in Hb, Hb1.
  rewrite Hb, Hb1, history_app, !drop_0. by rewrite drop_app_length.
Qed.

(** X20: what [totalLines] is.  It is the number of events the buffer
    retains now, that is the cumulative number of appends less the events
    evicted; if the cumulative count does not exceed [maxBufferSize] it is
    that count, and then a poll from the previous [totalLines] returns
    exactly the events appended since the previous poll. *)
Theorem X20_totalLines_is_retained_count :
  (forall (acts : list Action) (id : string) (s : Session)
          (fromIndex : option Q),
     sessions (run acts init) !! id = Some s ->
     exists (f : OutputFields) (evicted : nat),
       getSessionOutput id fromIndex (run acts init) = Ok f /\
       out_totalLines f = length (buffer (run acts init) (output s)) /\
       buffer (run acts init) (output s)
         = drop evicted (history (output s) acts init) /\
       out_totalLines f + evicted = length (history (output s) acts init) /\
       (length (history (output s) acts init) <= maxBufferSize ->
        out_totalLines f = length (history (output s) acts init))) /\
  (forall (acts1 acts2 : list Action) (id : string) (s1 s2 : Session)
          (f1 : OutputFields) (fromIndex : option Q),
     sessions (run acts1 init) !! id = Some s1 ->
     sessions (run (acts1 ++ acts2) init) !! id = Some s2 ->
     output s2 = output s1 ->
     length (history (output s1) (acts1 ++ acts2) init) <= maxBufferSize ->
     getSessionOutput id fromIndex (run acts1 init) = Ok f1 ->
     exists f2 : OutputFields,
       getSessionOutput id (Some (ofNat (out_totalLines f1)))
         (run (acts1 ++ acts2) init) = Ok f2 /\
       out_output f2 = history (output s1) acts2 (run acts1 init)).
Proof.
  split.
  - apply totalLines_retained.
  - apply poll_incremental.
Qed.

Lemma X20_witness :
  (exists (f : OutputFields) (evicted : nat),
     getSessionOutput demoId None (run (chatty 2) init) = Ok f /\
     out_totalLines f + evicted = length (history 0 (chatty 2) init) /\
     out_totalLines f = length (history 0 (chatty 2) init)) /\
  (exists f2 : OutputFields,
     getSessionOutput demoId (Some (ofNat 2))
       (run (chatty 2 ++ [AData 0 "y" "t3"]) init) = Ok f2 /\
     out_output f2 = history 0 [AData 0 "y" "t3"] (run (chatty 2) init)).
Proof.
  destruct X20_totalLines_is_retained_count as [Htotal Hpoll]. split.
  - destruct (Htotal (chatty 2) demoId demoSession None eq_refl)
      as (f & evicted & Hf & _ & _ & Hsum & Hfit).
    exists f, evicted. split_and!; [done | done |].
    apply Hfit. apply Nat.leb_le. reflexivity.
  - apply (Hpoll (chatty 2) [AData 0 "y" "t3"] demoId demoSession demoSession
             {| out_sessionId := demoId; out_isRunning := true;
                out_exitCode := JNull; out_exitSignal := JNull;
                out_output := [Stdout "x" "t"; Stdout "x" "t"];
                out_totalLines := 2 |} None).
    + reflexivity.
    + reflexivity.
    + reflexivity.
    + apply Nat.leb_le. reflexivity.
    + reflexivity.
Defined.

(** The state of a session that has received [n] identical chunks. *)
Lemma chatty_state (n : nat) :
  run (chatty n) init
  = {| sessions := {[ demoId := demoSession ]};
       heap := [replicate (n `min` maxBufferSize) (Stdout "x" "t")];
       ptyCalls := [] |}.
Proof.
  induction n as [|n IH]; [done|].
  unfold chatty in *.
  rewrite replicate_S_end, app_comm_cons, run_app, IH.
  cbn [run exec]. unfold onData. cbn [heap lookup list_lookup sessions ptyCalls].
  unfold push, shift. rewrite <- replicate_S_end, length_replicate.
  cbn [insert list_insert]. do 2 f_equal.
  destruct (Nat.ltb_spec maxBufferSize (S (n `min` maxBufferSize))) as [Hfull|Hroom].
  - cbn [replicate tail]. f_equal. lia.
  - f_equal. lia.
Qed.

Lemma chatty_history (n : nat) : length (history 0 (chatty n) init) = n.
Proof.
  unfold chatty. cbn [history].
  change (pushed 0 demoStart init) with (@nil OutputEvent). cbn [app].
  generalize (exec demoStart init),
    (eq_refl : length (heap (exec demoStart init)) = 1).
  induction n as [|n IH]; intros st Hst; [done|].
  cbn [replicate history pushed]. rewrite Hst. cbn [bool_decide andb decide_rel].
  rewrite length_app, IH; [done|].
  cbn [exec]. unfold onData. destruct (heap st !! 0); [|done].
  cbn [heap]. by rewrite length_insert.
Qed.

Lemma chatty_totalLines (n : nat) :
  out_totalLines <$> fields (getSessionOutput demoId None (run (chatty n) init))
  = Some (n `min` maxBufferSize).
Proof.
  rewrite chatty_state.
  rewrite (getSessionOutput_registered _ demoId demoSession) by done.
  cbn [fields fmap option_fmap option_map out_totalLines].
  change (buffer _ (output demoSession)) with
    (replicate (n `min` maxBufferSize) (Stdout "x" "t")).
  by rewrite length_replicate.
Qed.

Lemma chatty_poll (n k : nat) :
  out_output <$> fields (getSessionOutput demoId (Some (ofNat k))
                           (run (chatty n) init))
  = Some (replicate (n `min` maxBufferSize - k) (Stdout "x" "t")).
Proof.
  rewrite chatty_state.
  rewrite (getSessionOutput_registered _ demoId demoSession) by done.
  cbn [fields fmap option_fmap option_map out_output].
  change (default 0%Q (Some (ofNat k))) with (ofNat k).
  change (buffer _ (output demoSession)) with
    (replicate (n `min` maxBufferSize) (Stdout "x" "t")).
  by rewrite slice_ofNat, drop_replicate.
Qed.

(** C1 (the code departs from it): [totalLines] is the length of the
    array, and the data callback shifts the array once it is full.  After
    [maxBufferSize] = 10000 chunks [totalLines] is 10000; after one chunk
    more the cumulative count is 10001 but [totalLines] is still 10000, and
    the caller who polls from the previous [totalLines] receives nothing:
    the new event is missed. *)
Theorem C1_totalLines_stalls_after_eviction :
  length (history 0 (chatty (S maxBufferSize)) init) = S maxBufferSize /\
  out_totalLines <$> fields (getSessionOutput demoId None
                               (run (chatty maxBufferSize) init))
    = Some maxBufferSize /\
  out_totalLines <$> fields (getSessionOutput demoId None
                               (run (chatty (S maxBufferSize)) init))
    = Some maxBufferSize /\
  out_output <$> fields (getSessionOutput demoId (Some (ofNat maxBufferSize))
                           (run (chatty (S maxBufferSize)) init))
    = Some [].
Proof.
  rewrite chatty_history, !chatty_totalLines, chatty_poll.
  rewrite Nat.min_id, (Nat.min_r (S maxBufferSize)) by lia.
  by rewrite Nat.sub_diag.
Qed.

(** ** startProcess *)

(** The environment in the options of the spawn call. *)
Lemma spawnOptions_env (h : Host) (req : StartRequest) (k : string) :
  opt_env (spawnOptions h req) !! k
  = match default ∅ (req_env req) !! k with
    | Some v => Some v
    | None => process_env h !! k
    end.
Proof.
  unfold spawnOptions, spread. cbn [opt_env].
  rewrite lookup_union.
  destruct (default ∅ (req_env req) !! k) as [v|] eqn:Hk.
  - by destruct (process_env h !! k).
  - by destruct (process_env h !! k).
Qed.

(** The one spawn call of [startProcess] and what follows from it. *)
Lemma startProcess_spawnsWith (h : Host) (req : StartRequest) (st : State) :
  spawnsWith h req st (spawnExe h req) (spawnArgv h req) (spawnOptions h req).
Proof.
  unfold spawnsWith, startProcess. split.
  - intros p ->. cbn [fst snd sessions]. split; [done|].
    eexists. rewrite lookup_insert_eq. by split_and!.
  - by intros e ->.
Qed.

(** C9: the child is spawned with the server's environment overlaid with the
    caller's entries.  [startProcess] hands [pty.spawn] options whose [env]
    carries, for every key, the caller's value if the caller supplies one
    and the inherited value otherwise, so the inherited environment is never
    dropped; the handler's outcome is the outcome of that very call: the
    pid it returns is the pid replied and recorded, and an error it throws
    is the handler's error. *)
Theorem C9_child_env_is_merged (h : Host) (req : StartRequest) (st : State) :
  exists opts : PtyOptions,
    (forall k : string,
       opt_env opts !! k
       = match default ∅ (req_env req) !! k with
         | Some v => Some v
         | None => process_env h !! k
         end) /\
    (forall p : Z,
       pty_spawn h (spawnExe h req) (spawnArgv h req) opts = Spawned p ->
       (startProcess h req st).2
         = Resolved (Ok {| start_sessionId := randomUUID h;
                           start_pid := p |}) /\
       exists s : Session,
         sessions (startProcess h req st).1 !! randomUUID h = Some s /\
         pid s = p) /\
    (forall e : string,
       pty_spawn h (spawnExe h req) (spawnArgv h req) opts = SpawnThrows e ->
       startProcess h req st = (st, Rejected e)).
Proof.
  exists (spawnOptions h req).
  destruct (startProcess_spawnsWith h req st) as [Hok Hthrow].
  split_and!.
  - apply spawnOptions_env.
  - intros p Hp. destruct (Hok p Hp) as (Hreply & s & Hs & Hpid & _).
    split; [done|]. by exists s.
  - done.
Qed.

Lemma C9_witness :
  (startProcess (demoHost demoId) demoRequest init).2
  = Resolved (Ok {| start_sessionId := demoId; start_pid := 4242 |}).
Proof.
  destruct (C9_child_env_is_merged (demoHost demoId) demoRequest init)
    as (opts & _ & Hok & _).
  destruct (Hok 4242%Z eq_refl) as [Hreply _]. exact Hreply.
Defined.

(** A spawn call that throws ends the handler at once: the promise is
    rejected and the state is the one before the call. *)
Lemma startProcess_spawn_call (h : Host) (req : StartRequest) (st : State)
    (e : string) :
  pty_spawn h (spawnExe h req) (spawnArgv h req) (spawnOptions h req)
    = SpawnThrows e ->
  startProcess h req st = (st, Rejected e).
Proof. intros Hs. unfold startProcess. by rewrite Hs. Qed.

(** C5 (the code departs from it): when [pty.spawn] throws, the handler has
    no [try] around the call, so its promise is rejected with the error; no
    [{ ok: false, error }] reply is built.  Nothing is registered. *)
Theorem C5_spawn_failure_is_not_caught :
  startProcess strictHost badCwdRequest init
  = (init, Rejected "Error: chdir() failed").
Proof. reflexivity. Qed.

(** ** stopProcess *)

(** C10: when [pty.kill()] throws, [stopProcess] replies with the error and
    leaves the whole state, and so the session record, as it was. *)
Theorem C10_stop_failure_keeps_state (st : State) (id : string) (s : Session)
    (e : string) :
  sessions st !! id = Some s ->
  stopProcess id (Throws e) st = (st, Error e) /\
  sessions (stopProcess id (Throws e) st).1 !! id = Some s.
Proof.
  intros Hs. unfold stopProcess. rewrite Hs. by split.
Qed.

Lemma C10_witness :
  stopProcess demoId (Throws "Error: kill ESRCH") (run [demoStart] init)
    = (run [demoStart] init, Error "Error: kill ESRCH") /\
  sessions (stopProcess demoId (Throws "Error: kill ESRCH")
              (run [demoStart] init)).1 !! demoId = Some demoSession.
Proof.
  apply (C10_stop_failure_keeps_state (run [demoStart] init) demoId demoSession).
  reflexivity.
Defined.

(** C3 (as amended): when the kill succeeds, [stopProcess] replies
    [killed: true], keeps the record registered with its [exitCode] and
    [exitSignal] and every other field untouched, leaves all other records
    and all buffers alone, and itself sets [isRunning] to [false]. *)
Theorem C3_stop_marks_not_running (st : State) (id : string) (s : Session) :
  sessions st !! id = Some s ->
  stopProcess id Returns st
  = ({| sessions := <[id := stopped s]> (sessions st);
        heap := heap st;
        ptyCalls := ptyCalls st ++ [Kill (pty s)] |},
     Ok {| killed := true |}) /\
  isRunning (stopped s) = false /\
  exitCode (stopped s) = exitCode s /\
  exitSignal (stopped s) = exitSignal s /\
  output (stopped s) = output s.
Proof.
  intros Hs. unfold stopProcess. rewrite Hs. by split_and!.
Qed.

Lemma C3_witness :
  stopProcess demoId Returns (run [demoStart] init)
  = ({| sessions := <[demoId := stopped demoSession]>
                      (sessions (run [demoStart] init));
        heap := heap (run [demoStart] init);
        ptyCalls := ptyCalls (run [demoStart] init) ++ [Kill (pty demoSession)] |},
     Ok {| killed := true |}) /\
  isRunning (stopped demoSession) = false /\
  exitCode (stopped demoSession) = exitCode demoSession /\
  exitSignal (stopped demoSession) = exitSignal demoSession /\
  output (stopped demoSession) = output demoSession.
Proof.
  apply (C3_stop_marks_not_running (run [demoStart] init) demoId demoSession).
  reflexivity.
Defined.

(** C3, as stated, fails: a running session is marked not running by
    [stopProcess] itself, before any exit callback. *)
Lemma C3_counterexample :
  isRunning <$> sessions (run [demoStart] init) !! demoId = Some true /\
  isRunning <$> sessions (stopProcess demoId Returns (run [demoStart] init)).1
                  !! demoId = Some false.
Proof. split; reflexivity. Qed.

(** ** Session life cycle *)

Lemma lifecycle_stopped (s : Session) : lifecycle s -> lifecycle (stopped s).
Proof.
  unfold lifecycle. simpl. intros [(_ & Hc & Hs)|[(_ & Hc & Hs)|(_ & Hc & Hs)]].
  - right. by left.
  - right. by left.
  - right. by right.
Qed.

Lemma lifecycle_exited (s : Session) (code : Z) (signal : option Z) :
  lifecycle (exited s code signal).
Proof.
  unfold lifecycle. simpl. right. right.
  split_and!; [done | done | by destruct signal].
Qed.

Lemma lifecycle_exec (a : Action) (st : State) :
  map_Forall (fun _ s => lifecycle s) (sessions st) ->
  map_Forall (fun _ s => lifecycle s) (sessions (exec a st)).
Proof.
  intros Hst.
  action_cases a;
    simpl; try done.
  - unfold startProcess. destruct (pty_spawn h _ _ _); simpl; [|done].
    apply map_Forall_insert_2; [|done]. by left.
  - unfold onData. by destruct (heap st !! buf).
  - unfold onExit. destruct (sessions st !! sid) as [s|] eqn:Hs; simpl; [|done].
    apply map_Forall_insert_2; [|done]. apply lifecycle_exited.
  - unfold writeInput. destruct (sessions st !! sid); [|done]. by destruct w.
  - unfold stopProcess. destruct (sessions st !! sid) as [s|] eqn:Hs; [|done].
    destruct k; simpl; [|done].
    apply map_Forall_insert_2; [|done].
    apply lifecycle_stopped. by apply (Hst sid).
  - unfold cleanupSessions. destruct (truthy sid); simpl.
    + destruct (sessions st !! default "" sid); [|done].
      destruct (isRunning _); simpl; [done|]. by apply map_Forall_delete.
    + intros id s [Hs _]%map_lookup_filter_Some. by apply (Hst id).
Qed.

(** C2 (as amended): every registered session is in one of three states:
    running with both exit fields unset; not running with both exit fields
    still unset (which is what [stopProcess] produces until the exit
    callback fires); or not running with both exit fields set.  A running
    session never has an exit field set. *)
Theorem C2_lifecycle_invariant (st : State) (id : string) (s : Session) :
  reachable st ->
  sessions st !! id = Some s ->
  lifecycle s /\
  (isRunning s = true -> exitCode s = JNull /\ exitSignal s = JNull).
Proof.
  intros Hreach Hs.
  assert (Hall : map_Forall (fun _ s => lifecycle s) (sessions st)).
  { clear Hs. induction Hreach as [|a st' _ IH _]; [done|].
    by apply lifecycle_exec. }
  pose proof (Hall id s Hs) as Hlife. split; [done|].
  intros Hrun. destruct Hlife as [(_ & Hc & Hg)|[(Hn & _)|(Hn & _)]];
    [done | congruence | congruence].
Qed.

Lemma demo_stopped_reachable :
  reachable (run [demoStart; AStop demoId Returns] init).
Proof.
  apply reachable_run; [constructor|].
  repeat constructor. simpl. discriminate.
Qed.

Lemma C2_witness :
  lifecycle (stopped demoSession) /\
  (isRunning (stopped demoSession) = true ->
   exitCode (stopped demoSession) = JNull /\
   exitSignal (stopped demoSession) = JNull).
Proof.
  apply (C2_lifecycle_invariant
           (run [demoStart; AStop demoId Returns] init) demoId).
  - apply demo_stopped_reachable.
  - reflexivity.
Defined.

(** C2, as stated, fails: after [startProcess] and a successful
    [stopProcess] the record is not running and has no exit field set, which
    is neither of the two states. *)
Lemma C2_counterexample :
  reachable (run [demoStart; AStop demoId Returns] init) /\
  sessions (run [demoStart; AStop demoId Returns] init) !! demoId
    = Some (stopped demoSession) /\
  isRunning (stopped demoSession) = false /\
  exitCode (stopped demoSession) = JNull /\
  exitSignal (stopped demoSession) = JNull /\
  ~ lifecycle_two_states (stopped demoSession).
Proof.
  split; [apply demo_stopped_reachable|].
  split_and!; try reflexivity.
  intros [(Hrun & _)|(_ & Hcode & _)]; [discriminate | by apply Hcode].
Qed.

(** ** cleanupSessions *)

Lemma truthy_nonempty (id : string) : id <> "" -> truthy (Some id) = true.
Proof.
  intros Hid. unfold truthy. by destruct (String.eqb_spec id "").
Qed.

(** What [cleanupSessions] does when it is given no id, or the empty
    string: it keeps exactly the running sessions and counts the others. *)
Lemma cleanup_keeps_running (st : State) (sessionId : option string) :
  truthy sessionId = false ->
  (forall (id : string) (s : Session),
     sessions (cleanupSessions sessionId st).1 !! id = Some s
     <-> sessions st !! id = Some s /\ isRunning s = true) /\
  (exists cleaned : nat,
     (cleanupSessions sessionId st).2 = Ok cleaned /\
     size (sessions st)
     = size (sessions (cleanupSessions sessionId st).1) + cleaned) /\
  heap (cleanupSessions sessionId st).1 = heap st /\
  ptyCalls (cleanupSessions sessionId st).1 = ptyCalls st.
Proof.
  intros Hfalsy. unfold cleanupSessions. rewrite Hfalsy. cbn [fst snd sessions].
  split_and!; [| |done|done].
  - intros id s. by rewrite map_lookup_filter_Some.
  - eexists. split; [done|].
    rewrite <- map_size_disj_union by apply map_disjoint_filter_complement.
    by rewrite map_filter_union_complement.
Qed.

(** C8 (as amended): for a non-empty id, [cleanupSessions] fails with
    "Session is still running" and changes nothing exactly when the record
    is running, succeeds with [cleaned: 1] and removes that record alone
    exactly when it is not running, and fails with "Session not found" when
    the id is not registered.  The empty string as id is read as no id: the
    call does what the call without an id does, that is it keeps exactly
    the running sessions, removes all others and reports how many it
    removed. *)
Theorem C8_cleanup_by_id (st : State) (sessionId : string) :
  (sessionId <> "" ->
   (forall s : Session, sessions st !! sessionId = Some s ->
      (cleanupSessions (Some sessionId) st
         = (st, Error "Session is still running")
       <-> isRunning s = true) /\
      (cleanupSessions (Some sessionId) st = (removed sessionId st, Ok 1)
       <-> isRunning s = false)) /\
   (sessions st !! sessionId = None ->
    cleanupSessions (Some sessionId) st = (st, Error "Session not found"))) /\
  cleanupSessions (Some "") st = cleanupSessions None st /\
  (forall (id : string) (s : Session),
     sessions (cleanupSessions (Some "") st).1 !! id = Some s
     <-> sessions st !! id = Some s /\ isRunning s = true) /\
  (exists cleaned : nat,
     (cleanupSessions (Some "") st).2 = Ok cleaned /\
     size (sessions st)
     = size (sessions (cleanupSessions (Some "") st).1) + cleaned).
Proof.
  split_and!.
  - intros Hid. unfold cleanupSessions. rewrite (truthy_nonempty _ Hid).
    change (default "" (Some sessionId)) with sessionId. split.
    + intros s Hs. rewrite Hs. destruct (isRunning s); split; split; done.
    + intros Hs. by rewrite Hs.
  - done.
  - by destruct (cleanup_keeps_running st (Some "")) as (? & _).
  - by destruct (cleanup_keeps_running st (Some "")) as (_ & ? & _).
Qed.

Lemma C8_witness :
  ((forall s : Session,
      sessions (run [demoStart] init) !! demoId = Some s ->
      (cleanupSessions (Some demoId) (run [demoStart] init)
         = (run [demoStart] init, Error "Session is still running")
       <-> isRunning s = true) /\
      (cleanupSessions (Some demoId) (run [demoStart] init)
         = (removed demoId (run [demoStart] init), Ok 1)
       <-> isRunning s = false)) /\
   (sessions (run [demoStart] init) !! demoId = None ->
    cleanupSessions (Some demoId) (run [demoStart] init)
      = (run [demoStart] init, Error "Session not found"))) /\
  cleanupSessions (Some "") (run [demoStart] init)
    = cleanupSessions None (run [demoStart] init).
Proof.
  destruct (C8_cleanup_by_id (run [demoStart] init) demoId)
    as (Hid & Hempty & _).
  split; [|exact Hempty]. apply Hid. discriminate.
Defined.

(** C8, as stated, fails for the id [""]: it is not registered, yet the call
    does not fail with "Session not found" but removes every finished
    session and reports success. *)
Lemma C8_counterexample :
  sessions (run [demoStart; AExit demoId 0 None "t"] init) !! "" = None /\
  sessions (run [demoStart; AExit demoId 0 None "t"] init) !! demoId
    = Some (exited demoSession 0 None) /\
  (cleanupSessions (Some "") (run [demoStart; AExit demoId 0 None "t"] init)).2
    = Ok 1 /\
  sessions (cleanupSessions (Some "")
              (run [demoStart; AExit demoId 0 None "t"] init)).1 !! demoId
    = None.
Proof. vm_compute. done. Qed.

(** ** getSessionOutput *)




(** ** The capacity bound *)

(** A data callback never leaves more than [maxBufferSize] events in an
    array that was within the bound. *)
Lemma onData_keeps_bound (buf r : nat) (data now : string) (st : State) :
  length (buffer st r) <= maxBufferSize ->
  length (buffer (onData buf data now st) r) <= maxBufferSize.
Proof.
  intros Hle. unfold onData. destruct (heap st !! buf) as [b|] eqn:Hb; [|done].
  rewrite buffer_mk. destruct (decide (buf = r)) as [->|Hne].
  - rewrite list_lookup_insert_eq by (by eapply lookup_lt_Some).
    rewrite (buffer_lookup _ _ _ Hb) in Hle. simpl. unfold push.
    destruct (Nat.ltb_spec maxBufferSize (length (b ++ [Stdout data now])))
      as [Hfull|Hroom]; [|done].
    rewrite shift_drop, length_drop, length_app. simpl. lia.
  - by rewrite list_lookup_insert_ne.
Qed.

(** C4 (the code departs from it): the exit callback pushes its marker
    without the check the data callback makes.  A session that has filled
    its buffer with [maxBufferSize] = 10000 chunks and then exits retains
    10001 events. *)
Theorem C4_exit_marker_exceeds_capacity :
  length (buffer (run (chatty maxBufferSize) init) 0) = maxBufferSize /\
  length (buffer (run (chatty maxBufferSize
                       ++ [AExit demoId 0 (Some 0%Z) "t"]) init) 0)
    = S maxBufferSize.
Proof.
  rewrite run_app, chatty_state, Nat.min_id. cbn [run exec]. unfold onExit.
  cbn [sessions]. rewrite lookup_singleton_eq. rewrite !buffer_mk.
  cbn [output demoSession heap alter list_alter lookup list_lookup default
       from_option id]. unfold push.
  rewrite length_app, length_replicate. cbn [length]. split; [done | lia].
Qed.

(** ** Wait mode *)






(** * Further properties of the registry *)

(** ** References *)

(** A state whose records all descend from records of [st], with the same
    references, over a heap of the same size, inherits both reference
    invariants. *)
Lemma refs_inherited (st st' : State) :
  length (heap st') = length (heap st) ->
  (forall (id : string) (s' : Session),
     sessions st' !! id = Some s' ->
     exists s : Session,
       sessions st !! id = Some s /\ output s' = output s /\ pty s' = pty s) ->
  allocated st -> unshared st -> allocated st' /\ unshared st'.
Proof.
  intros Hlen Hfrom Halloc Hun. split.
  - intros id s' Hs'. destruct (Hfrom id s' Hs') as (s & Hs & -> & ->).
    rewrite Hlen. by apply (Halloc id).
  - intros id1 id2 s1 s2 H1 H2 Hout.
    destruct (Hfrom id1 s1 H1) as (t1 & Ht1 & Ho1 & _).
    destruct (Hfrom id2 s2 H2) as (t2 & Ht2 & Ho2 & _).
    apply (Hun id1 id2 t1 t2); [done | done | congruence].
Qed.

Lemma refs_exec (a : Action) (st : State) :
  allocated st -> unshared st ->
  Forall (fun c => handle c < length (heap st)) (ptyCalls st) ->
  allocated (exec a st) /\ unshared (exec a st) /\
  Forall (fun c => handle c < length (heap (exec a st))) (ptyCalls (exec a st)).
Proof.
  intros Halloc Hun Hcalls.
  assert (Hkeep : forall st',
            length (heap st') = length (heap st) ->
            (forall (id : string) (s' : Session),
               sessions st' !! id = Some s' ->
               exists s : Session,
                 sessions st !! id = Some s /\ output s' = output s /\
                 pty s' = pty s) ->
            Forall (fun c => handle c < length (heap st)) (ptyCalls st') ->
            allocated st' /\ unshared st' /\
            Forall (fun c => handle c < length (heap st')) (ptyCalls st')).
  { intros st' Hlen Hfrom Hc.
    destruct (refs_inherited st st' Hlen Hfrom Halloc Hun) as [? ?].
    split_and!; [done | done |]. by rewrite Hlen. }
  assert (Hid : forall (id : string) (s' : Session),
            sessions st !! id = Some s' ->
            exists s : Session,
              sessions st !! id = Some s /\ output s' = output s /\
              pty s' = pty s) by eauto.
  action_cases a; simpl exec.
  - unfold startProcess. destruct (pty_spawn h _ _ _) as [p|e]; simpl;
      [|by apply Hkeep].
    assert (Hgrow : length (heap st ++ [[]]) = S (length (heap st)))
      by (rewrite length_app; simpl; lia).
    split_and!.
    + intros id s. cbn [sessions heap]. rewrite Hgrow.
      intros [[_ <-]|[_ Hs]]%lookup_insert_Some.
      * simpl. split; [lia | done].
      * destruct (Halloc id s Hs). split; [lia | done].
    + intros id1 id2 s1 s2. cbn [sessions].
      intros [[<- <-]|[Hne1 H1]]%lookup_insert_Some
             [[<- <-]|[Hne2 H2]]%lookup_insert_Some; simpl; intros Hout.
      * done.
      * destruct (Halloc id2 s2 H2). lia.
      * destruct (Halloc id1 s1 H1). lia.
      * by apply (Hun id1 id2 s1 s2).
    + cbn [heap ptyCalls]. rewrite Hgrow.
      eapply Forall_impl; [exact Hcalls|]. simpl. lia.
  - unfold onData. destruct (heap st !! buf); [|by apply Hkeep].
    apply Hkeep; [cbn [heap]; by rewrite length_insert | done | done].
  - unfold onExit. destruct (sessions st !! sid) as [s|] eqn:Hs;
      [|by apply Hkeep].
    apply Hkeep; [cbn [heap]; by rewrite length_alter | | done].
    intros id s'. simpl.
    intros [[<- <-]|[_ Hs']]%lookup_insert_Some; eauto.
  - unfold writeInput. destruct (sessions st !! sid) as [s|] eqn:Hs;
      [|by apply Hkeep].
    destruct w; [|by apply Hkeep]. apply Hkeep; [done | done |].
    apply Forall_app. split; [done|]. constructor; [|done]. simpl.
    destruct (Halloc sid s Hs) as [? ->]. done.
  - by apply Hkeep.
  - by apply Hkeep.
  - unfold stopProcess. destruct (sessions st !! sid) as [s|] eqn:Hs;
      [|by apply Hkeep].
    destruct k; [|by apply Hkeep]. apply Hkeep; [done | |].
    + intros id s'. simpl.
      intros [[<- <-]|[_ Hs']]%lookup_insert_Some; eauto.
    + apply Forall_app. split; [done|]. constructor; [|done]. simpl.
      destruct (Halloc sid s Hs) as [? ->]. done.
  - unfold cleanupSessions. destruct (truthy sid); cbn [fst].
    + destruct (sessions st !! default "" sid); [|by apply Hkeep].
      destruct (isRunning _); [by apply Hkeep|]. apply Hkeep; [done | | done].
      intros id s'. simpl. intros [_ Hs']%lookup_delete_Some. eauto.
    + apply Hkeep; [done | | done].
      intros id s'. simpl.
      intros [Hs' _]%map_lookup_filter_Some. eauto.
Qed.

Lemma refs_run (acts : list Action) (st : State) :
  allocated st -> unshared st ->
  Forall (fun c => handle c < length (heap st)) (ptyCalls st) ->
  allocated (run acts st) /\ unshared (run acts st) /\
  Forall (fun c => handle c < length (heap (run acts st)))
         (ptyCalls (run acts st)).
Proof.
  revert st. induction acts as [|a rest IH]; intros st Ha Hu Hc; simpl.
  - done.
  - destruct (refs_exec a st Ha Hu Hc) as (? & ? & ?). by apply IH.
Qed.

Lemma refs_init :
  allocated init /\ unshared init /\
  Forall (fun c => handle c < length (heap init)) (ptyCalls init).
Proof. split_and!; [intros ? ? ?; done | intros ? ? ? ? ?; done | constructor]. Qed.

Lemma refs_from_init (acts : list Action) :
  allocated (run acts init) /\ unshared (run acts init) /\
  Forall (fun c => handle c < length (heap (run acts init)))
         (ptyCalls (run acts init)).
Proof.
  destruct refs_init as (Ha & Hu & Hc). by apply refs_run.
Qed.

(** X1: along every run each registered record refers to an array that has
    been allocated and to the PTY that feeds this array, and every call the
    server made on a PTY went to a PTY it had spawned. *)
Theorem X1_references_allocated (acts : list Action) :
  allocated (run acts init) /\
  Forall (fun c => handle c < length (heap (run acts init)))
         (ptyCalls (run acts init)).
Proof.
  destruct (refs_from_init acts) as (? & _ & ?). done.
Qed.

(** X2: along every run no two registered sessions share an output
    buffer. *)
Theorem X2_buffers_unshared (acts : list Action) : unshared (run acts init).
Proof. by destruct (refs_from_init acts) as (_ & ? & _). Qed.

(** X3: sessions do not interfere.  A data chunk for one session, and the
    exit of one session, leave what [getSessionOutput] answers for every
    other session as it was. *)
Theorem X3_sessions_isolated (acts : list Action) (id1 id2 : string)
    (s1 : Session) (fromIndex : option Q) (data now : string) (code : Z)
    (signal : option Z) :
  sessions (run acts init) !! id1 = Some s1 ->
  id1 <> id2 ->
  getSessionOutput id2 fromIndex (onData (output s1) data now (run acts init))
    = getSessionOutput id2 fromIndex (run acts init) /\
  getSessionOutput id2 fromIndex (onExit id1 code signal now (run acts init))
    = getSessionOutput id2 fromIndex (run acts init).
Proof.
  intros H1 Hne. destruct (refs_from_init acts) as (_ & Hun & _).
  set (st := run acts init) in *.
  unfold getSessionOutput, onData, onExit. rewrite H1.
  destruct (heap st !! output s1) as [b|] eqn:Hb; cbn [sessions];
    rewrite ?lookup_insert_ne by done;
    (destruct (sessions st !! id2) as [s2|] eqn:H2; [|done]);
    assert (Hout : output s1 <> output s2)
      by (intros Heq; by apply Hne, (Hun id1 id2 s1 s2));
    rewrite ?buffer_mk, ?list_lookup_insert_ne, ?list_lookup_alter_ne by done;
    by fold (buffer st (output s2)).
Qed.

Lemma X3_witness :
  getSessionOutput "other" None
    (onData (output demoSession) "x" "t"
       (run [demoStart; AStart (demoHost "other") demoRequest] init))
  = getSessionOutput "other" None
      (run [demoStart; AStart (demoHost "other") demoRequest] init) /\
  getSessionOutput "other" None
    (onExit demoId 0 None "t"
       (run [demoStart; AStart (demoHost "other") demoRequest] init))
  = getSessionOutput "other" None
      (run [demoStart; AStart (demoHost "other") demoRequest] init).
Proof.
  apply (X3_sessions_isolated
           [demoStart; AStart (demoHost "other") demoRequest]
           demoId "other" demoSession None "x" "t" 0%Z None).
  - reflexivity.
  - discriminate.
Defined.

(** ** The exit callback and the size of a buffer *)

(** X4: when the exit callback of a registered session fires, the session
    reads as not running with the reported code and signal, the exit marker
    is the newest event, and the buffer has grown by exactly one event:
    the exit marker never evicts anything. *)
Theorem X4_exit_is_recorded (acts : list Action) (id : string) (s : Session)
    (code : Z) (signal : option Z) (now : string) :
  sessions (run acts init) !! id = Some s ->
  getSessionOutput id None (onExit id code signal now (run acts init))
  = Ok {| out_sessionId := id;
          out_isRunning := false;
          out_exitCode := JNumber code;
          out_exitSignal := ofSignal signal;
          out_output := buffer (run acts init) (output s)
                        ++ [Exit code signal now];
          out_totalLines := S (length (buffer (run acts init) (output s))) |}.
Proof.
  intros Hs. destruct (refs_from_init acts) as (Halloc & _ & _).
  destruct (Halloc id s Hs) as [Hlt _].
  destruct (lookup_lt_is_Some_2 _ _ Hlt) as [b Hb].
  set (st := run acts init) in *.
  unfold getSessionOutput, onExit. rewrite Hs. cbn [sessions].
  rewrite lookup_insert_eq. cbn [isRunning exitCode exitSignal output exited].
  rewrite buffer_mk, list_lookup_alter_eq, Hb, (buffer_lookup _ _ _ Hb).
  cbn [fmap option_fmap option_map default from_option Datatypes.id].
  unfold push. rewrite slice_zero by done. rewrite length_app. cbn [length].
  by rewrite Nat.add_1_r.
Qed.

Lemma X4_witness :
  getSessionOutput demoId None
    (onExit demoId 42 None "t9" (run (chatty 1) init))
  = Ok {| out_sessionId := demoId;
          out_isRunning := false;
          out_exitCode := JNumber 42;
          out_exitSignal := JUndefined;
          out_output := buffer (run (chatty 1) init) (output demoSession)
                        ++ [Exit 42 None "t9"];
          out_totalLines :=
            S (length (buffer (run (chatty 1) init) (output demoSession))) |}.
Proof.
  apply (X4_exit_is_recorded (chatty 1) demoId demoSession 42%Z None "t9").
  reflexivity.
Defined.

Lemma exitMarkers_app (l1 l2 : list OutputEvent) :
  exitMarkers (l1 ++ l2) = exitMarkers l1 + exitMarkers l2.
Proof. induction l1 as [|e l1 IH]; simpl; [done|]. rewrite IH. lia. Qed.

(** One action lets array [r] grow beyond the bound only by an exit
    marker. *)
Lemma buffer_exec_length (a : Action) (st : State) (r : nat) :
  length (buffer (exec a st) r)
  <= length (buffer st r) `max` maxBufferSize + exitMarkers (pushed r a st).
Proof.
  assert (Hsame : forall (st' : State) (n : nat),
            heap st' = heap st ->
            length (buffer st' r) <= length (buffer st r) `max` maxBufferSize + n).
  { intros st' n Hheap. unfold buffer. rewrite Hheap. lia. }
  action_cases a; simpl exec.
  - unfold startProcess. destruct (pty_spawn h _ _ _); simpl; [|by apply Hsame].
    rewrite buffer_mk, buffer_alloc. lia.
  - unfold onData. destruct (heap st !! buf) as [b|] eqn:Hb; [|by apply Hsame].
    rewrite buffer_mk. destruct (decide (buf = r)) as [->|Hne].
    + rewrite list_lookup_insert_eq by (by eapply lookup_lt_Some).
      rewrite (buffer_lookup _ _ _ Hb). cbn [default from_option id].
      unfold push.
      destruct (Nat.ltb_spec maxBufferSize (length (b ++ [Stdout data now])))
        as [Hfull|Hroom].
      * rewrite shift_drop, length_drop, length_app. simpl. lia.
      * lia.
    + rewrite list_lookup_insert_ne by done. fold (buffer st r). lia.
  - unfold onExit. simpl pushed.
    destruct (sessions st !! sid) as [s|] eqn:Hs; [|by apply Hsame].
    rewrite buffer_mk. destruct (decide (output s = r)) as [<-|Hne].
    + rewrite list_lookup_alter_eq.
      destruct (heap st !! output s) as [b|] eqn:Hb.
      * pose proof (lookup_lt_Some _ _ _ Hb) as Hlt.
        rewrite (buffer_lookup _ _ _ Hb).
        rewrite !bool_decide_eq_true_2 by done. simpl.
        unfold push. rewrite length_app. simpl. lia.
      * simpl. lia.
    + rewrite list_lookup_alter_ne by done. fold (buffer st r). lia.
  - apply Hsame. unfold writeInput.
    destruct (sessions st !! sid); [|done]. by destruct w.
  - by apply Hsame.
  - by apply Hsame.
  - apply Hsame. unfold stopProcess.
    destruct (sessions st !! sid); [|done]. by destruct k.
  - apply Hsame. unfold cleanupSessions.
    destruct (truthy sid); [|done].
    destruct (sessions st !! default "" sid); [|done].
    by destruct (isRunning _).
Qed.

Lemma buffer_run_length (acts : list Action) (st : State) (r : nat) :
  length (buffer (run acts st) r)
  <= length (buffer st r) `max` maxBufferSize
     + exitMarkers (history r acts st).
Proof.
  revert st. induction acts as [|a rest IH]; intros st; simpl; [lia|].
  pose proof (buffer_exec_length a st r) as Hstep.
  pose proof (IH (exec a st)) as Hrest.
  rewrite exitMarkers_app. lia.
Qed.

(** X5: the bound the buffers do keep.  Along every run a buffer holds at
    most [maxBufferSize] events plus one for each exit marker ever pushed
    onto it; a buffer that never received an exit marker stays within
    [maxBufferSize]. *)
Theorem X5_buffer_bound (acts : list Action) (r : nat) :
  length (buffer (run acts init) r)
    <= maxBufferSize + exitMarkers (history r acts init) /\
  (exitMarkers (history r acts init) = 0 ->
   length (buffer (run acts init) r) <= maxBufferSize).
Proof.
  pose proof (buffer_run_length acts init r) as Hlen.
  change (length (buffer init r)) with 0 in Hlen.
  rewrite Nat.max_0_l in Hlen. split; [done|]. intros Hno. lia.
Qed.

Lemma X5_witness :
  length (buffer (run (chatty 3) init) 0)
    <= maxBufferSize + exitMarkers (history 0 (chatty 3) init) /\
  length (buffer (run (chatty 3) init) 0) <= maxBufferSize.
Proof.
  destruct (X5_buffer_bound (chatty 3) 0) as [Hle Hdata].
  split; [exact Hle|]. apply Hdata. reflexivity.
Defined.

(** ** Starting a session *)

Lemma slice_nil {A} (x : Q) : slice (@nil A) x = [].
Proof. unfold slice. by rewrite drop_nil. Qed.

(** X6: a successful [startProcess] replies with the issued id and the pid;
    the new session can be read at once and shows as running with no exit
    fields and no output, whatever offset is asked for; the answers for all
    other ids are as before. *)
Theorem X6_start_registers (h : Host) (req : StartRequest) (st : State)
    (p : Z) (fromIndex : option Q) :
  pty_spawn h (spawnExe h req) (spawnArgv h req) (spawnOptions h req)
    = Spawned p ->
  (startProcess h req st).2
    = Resolved (Ok {| start_sessionId := randomUUID h; start_pid := p |}) /\
  getSessionOutput (randomUUID h) fromIndex (startProcess h req st).1
    = Ok {| out_sessionId := randomUUID h; out_isRunning := true;
            out_exitCode := JNull; out_exitSignal := JNull;
            out_output := []; out_totalLines := 0 |} /\
  forall id : string, id <> randomUUID h ->
    getSessionOutput id fromIndex (startProcess h req st).1
    = getSessionOutput id fromIndex st.
Proof.
  intros Hspawn. unfold startProcess. rewrite Hspawn. cbn [fst snd].
  split; [done|]. unfold getSessionOutput. cbn [sessions]. split.
  - rewrite lookup_insert_eq. cbn [output isRunning exitCode exitSignal].
    rewrite buffer_mk, list_lookup_middle by done.
    cbn [default from_option Datatypes.id]. by rewrite slice_nil.
  - intros id Hne. rewrite lookup_insert_ne by done.
    destruct (sessions st !! id) as [s|]; [|done].
    by rewrite buffer_mk, buffer_alloc.
Qed.

Lemma X6_witness :
  (startProcess (demoHost demoId) demoRequest init).2
    = Resolved (Ok {| start_sessionId := demoId; start_pid := 4242 |}) /\
  getSessionOutput demoId (Some 7%Q)
    (startProcess (demoHost demoId) demoRequest init).1
    = Ok {| out_sessionId := demoId; out_isRunning := true;
            out_exitCode := JNull; out_exitSignal := JNull;
            out_output := []; out_totalLines := 0 |} /\
  forall id : string, id <> demoId ->
    getSessionOutput id (Some 7%Q)
      (startProcess (demoHost demoId) demoRequest init).1
    = getSessionOutput id (Some 7%Q) init.
Proof.
  apply (X6_start_registers (demoHost demoId) demoRequest init 4242 (Some 7%Q)).
  reflexivity.
Defined.

(** X7: on platforms other than win32 the [shellOnWindows] hint is ignored:
    [startProcess] calls [pty.spawn] with the command and the argument
    vector untouched, and records them.  On win32 with the hint set it
    calls [pty.spawn] with [powershell.exe] and the command line made of the
    command and its arguments joined by spaces. *)
Theorem X7_shell_routing (h : Host) (req : StartRequest) (st : State) :
  (os_platform h <> "win32" ->
   spawnsWith h req st (req_cmd req) (default [] (req_args req))
     (spawnOptions h req)) /\
  (os_platform h = "win32" -> req_shellOnWindows req = Some true ->
   spawnsWith h req st "powershell.exe"
     ["-NoLogo"; "-Command";
      req_cmd req +:+ " " +:+ String.concat " " (default [] (req_args req))]
     (spawnOptions h req)).
Proof.
  pose proof (startProcess_spawnsWith h req st) as Hspawn.
  unfold spawnExe, spawnArgv, viaShell, isWin in Hspawn. split.
  - intros Hos. by destruct (String.eqb_spec (os_platform h) "win32").
  - intros Hos Hhint. by rewrite Hos, Hhint in Hspawn.
Qed.

Lemma X7_witness :
  (startProcess (demoHost demoId) demoRequest init).2
    = Resolved (Ok {| start_sessionId := demoId; start_pid := 4242 |}) /\
  exists s : Session,
    sessions (startProcess (demoHost demoId) demoRequest init).1 !! demoId
      = Some s /\
    pid s = 4242%Z /\ cmd s = "cat" /\ args s = [] /\ cwd s = "/srv".
Proof.
  destruct (X7_shell_routing (demoHost demoId) demoRequest init) as [Hplain _].
  destruct Hplain as [Hok _]; [discriminate|].
  exact (Hok 4242%Z eq_refl).
Defined.

(** ** Stopping, cleaning up, late callbacks *)

Lemma stopped_finished (s : Session) : isRunning s = false -> stopped s = s.
Proof. destruct s. simpl. by intros ->. Qed.

(** X8: stopping a session that is no longer running succeeds again: the
    kill is sent once more, the reply is [killed: true], and the registry,
    the recorded exit fields included, is exactly as before. *)
Theorem X8_stop_finished_session (st : State) (id : string) (s : Session) :
  sessions st !! id = Some s ->
  isRunning s = false ->
  stopProcess id Returns st
  = ({| sessions := sessions st;
        heap := heap st;
        ptyCalls := ptyCalls st ++ [Kill (pty s)] |},
     Ok {| killed := true |}).
Proof.
  intros Hs Hrun. unfold stopProcess. rewrite Hs.
  rewrite (stopped_finished s Hrun). by rewrite insert_id.
Qed.

Lemma X8_witness :
  stopProcess demoId Returns (run [demoStart; AExit demoId 0 None "t"] init)
  = ({| sessions := sessions (run [demoStart; AExit demoId 0 None "t"] init);
        heap := heap (run [demoStart; AExit demoId 0 None "t"] init);
        ptyCalls := ptyCalls (run [demoStart; AExit demoId 0 None "t"] init)
                    ++ [Kill (pty (exited demoSession 0 None))] |},
     Ok {| killed := true |}).
Proof.
  apply (X8_stop_finished_session
           (run [demoStart; AExit demoId 0 None "t"] init) demoId
           (exited demoSession 0 None)).
  - reflexivity.
  - reflexivity.
Defined.

Lemma cleanup_finished (st : State) (id : string) (s : Session) :
  id <> "" ->
  sessions st !! id = Some s ->
  isRunning s = false ->
  cleanupSessions (Some id) st = (removed id st, Ok 1).
Proof.
  intros Hid Hs Hrun. unfold cleanupSessions.
  rewrite (truthy_nonempty _ Hid).
  change (default "" (Some id)) with id. by rewrite Hs, Hrun.
Qed.

(** X9: a stopped session can be cleaned up before its process has exited.
    After [stopProcess] and [cleanupSessions] with its id the record is
    gone, the exit callback that arrives later changes nothing, and the
    session's output can no longer be read. *)
Theorem X9_stop_cleanup_then_exit (st : State) (id : string) (s : Session)
    (code : Z) (signal : option Z) (now : string) (fromIndex : option Q) :
  sessions st !! id = Some s ->
  id <> "" ->
  cleanupSessions (Some id) (stopProcess id Returns st).1
    = (removed id (stopProcess id Returns st).1, Ok 1) /\
  onExit id code signal now (removed id (stopProcess id Returns st).1)
    = removed id (stopProcess id Returns st).1 /\
  getSessionOutput id fromIndex (removed id (stopProcess id Returns st).1)
    = Error "Session not found".
Proof.
  intros Hs Hid. split_and!.
  - apply (cleanup_finished _ id (stopped s)); [done | | done].
    unfold stopProcess. rewrite Hs. cbn [fst sessions].
    by rewrite lookup_insert_eq.
  - unfold onExit, removed. cbn [sessions]. by rewrite lookup_delete_eq.
  - unfold getSessionOutput, removed. cbn [sessions].
    by rewrite lookup_delete_eq.
Qed.

Lemma X9_witness :
  cleanupSessions (Some demoId)
    (stopProcess demoId Returns (run [demoStart] init)).1
    = (removed demoId (stopProcess demoId Returns (run [demoStart] init)).1,
       Ok 1) /\
  onExit demoId 0 None "t"
    (removed demoId (stopProcess demoId Returns (run [demoStart] init)).1)
    = removed demoId (stopProcess demoId Returns (run [demoStart] init)).1 /\
  getSessionOutput demoId None
    (removed demoId (stopProcess demoId Returns (run [demoStart] init)).1)
    = Error "Session not found".
Proof.
  apply (X9_stop_cleanup_then_exit (run [demoStart] init) demoId demoSession
           0%Z None "t" None).
  - reflexivity.
  - discriminate.
Defined.

(** ** cleanupSessions without an id *)

Lemma finished_after_cleanup (m : gmap string Session) :
  filter (fun entry => ¬ running entry) (filter running m) = ∅.
Proof.
  apply map_eq. intros i. rewrite lookup_empty.
  apply map_lookup_filter_None. right. intros s Hs Hnot.
  apply map_lookup_filter_Some in Hs as [_ Hrun]. by apply Hnot.
Qed.

(** X10: called without an id (or with the empty string) [cleanupSessions]
    keeps exactly the running sessions, with their records unchanged,
    reports as [cleaned] the number of records it removed, and touches no
    buffer and no PTY. *)
Theorem X10_cleanup_all (st : State) (sessionId : option string) :
  truthy sessionId = false ->
  (forall (id : string) (s : Session),
     sessions (cleanupSessions sessionId st).1 !! id = Some s
     <-> sessions st !! id = Some s /\ isRunning s = true) /\
  (exists cleaned : nat,
     (cleanupSessions sessionId st).2 = Ok cleaned /\
     size (sessions st)
     = size (sessions (cleanupSessions sessionId st).1) + cleaned) /\
  heap (cleanupSessions sessionId st).1 = heap st /\
  ptyCalls (cleanupSessions sessionId st).1 = ptyCalls st.
Proof. apply cleanup_keeps_running. Qed.

Lemma X10_witness :
  (forall (id : string) (s : Session),
     sessions (cleanupSessions None (run [demoStart] init)).1 !! id = Some s
     <-> sessions (run [demoStart] init) !! id = Some s /\ isRunning s = true)
  /\
  (exists cleaned : nat,
     (cleanupSessions None (run [demoStart] init)).2 = Ok cleaned /\
     size (sessions (run [demoStart] init))
     = size (sessions (cleanupSessions None (run [demoStart] init)).1)
       + cleaned) /\
  heap (cleanupSessions None (run [demoStart] init)).1
    = heap (run [demoStart] init) /\
  ptyCalls (cleanupSessions None (run [demoStart] init)).1
    = ptyCalls (run [demoStart] init).
Proof.
  apply (X10_cleanup_all (run [demoStart] init) None). reflexivity.
Defined.

(** X11: cleaning up twice in a row removes nothing the second time: the
    second call reports [cleaned: 0] and leaves the state as the first call
    left it. *)
Theorem X11_cleanup_all_twice (st : State) (first second : option string) :
  truthy first = false ->
  truthy second = false ->
  cleanupSessions second (cleanupSessions first st).1
  = ((cleanupSessions first st).1, Ok 0).
Proof.
  intros H1 H2. unfold cleanupSessions. rewrite H1, H2.
  cbn [fst sessions heap ptyCalls].
  rewrite finished_after_cleanup, map_size_empty. do 2 f_equal.
  apply map_filter_id. intros i s Hs.
  by apply map_lookup_filter_Some in Hs as [_ Hrun].
Qed.

Lemma X11_witness :
  cleanupSessions (Some "")
    (cleanupSessions None (run [demoStart; AExit demoId 0 None "t"] init)).1
  = ((cleanupSessions None (run [demoStart; AExit demoId 0 None "t"] init)).1,
     Ok 0).
Proof.
  apply (X11_cleanup_all_twice
           (run [demoStart; AExit demoId 0 None "t"] init) None (Some ""));
    reflexivity.
Defined.

(** ** listSessions *)

(** X12: [listSessions] and [getSessionOutput] agree.  An id is listed
    exactly when [getSessionOutput] succeeds for it, and then the summary
    carries that id, the same running flag and exit code, and as
    [outputLines] the [totalLines] of [getSessionOutput]. *)
Theorem X12_list_agrees_with_output (st : State) (id : string) :
  match listSessions st !! id, getSessionOutput id None st with
  | Some sm, Ok f =>
      sum_sessionId sm = id /\
      sum_isRunning sm = out_isRunning f /\
      sum_exitCode sm = out_exitCode f /\
      sum_outputLines sm = out_totalLines f
  | None, Error _ => True
  | _, _ => False
  end.
Proof.
  unfold listSessions, getSessionOutput. rewrite map_lookup_imap.
  by destruct (sessions st !! id).
Qed.

(** ** What a reply can contain *)

(** X13: whatever offset is asked for, the events [getSessionOutput]
    returns are the newest events ever appended to the session's buffer, in
    the order they were appended: a suffix of the buffer's whole history,
    never longer than [totalLines]. *)
Theorem X13_output_is_recent_history (acts : list Action) (id : string)
    (s : Session) (fromIndex : option Q) :
  sessions (run acts init) !! id = Some s ->
  exists (f : OutputFields) (n : nat),
    getSessionOutput id fromIndex (run acts init) = Ok f /\
    out_output f = drop n (history (output s) acts init) /\
    length (out_output f) <= out_totalLines f.
Proof.
  intros Hs. rewrite (getSessionOutput_registered _ _ _ _ Hs).
  destruct (buffer_run acts init (output s)) as (k & _ & Hb & _).
  change (buffer init (output s)) with (@nil OutputEvent) in Hb.
  cbn [app] in Hb. unfold slice. rewrite Hb.
  eexists _, _. split; [done|]. cbn [out_output out_totalLines].
  split; [by rewrite drop_drop|]. rewrite !length_drop. lia.
Qed.

Lemma X13_witness :
  exists (f : OutputFields) (n : nat),
    getSessionOutput demoId (Some (-1)%Q) (run (chatty 3) init) = Ok f /\
    out_output f = drop n (history (output demoSession) (chatty 3) init) /\
    length (out_output f) <= out_totalLines f.
Proof.
  apply (X13_output_is_recent_history (chatty 3) demoId demoSession).
  reflexivity.
Defined.

(** ** A session over its life *)

Lemma evolves_refl (s : Session) : evolves s s.
Proof. by split_and!. Qed.

Lemma evolves_trans (s1 s2 s3 : Session) :
  evolves s1 s2 -> evolves s2 s3 -> evolves s1 s3.
Proof.
  intros (Hl1 & Hr1 & Hc1) (Hl2 & Hr2 & Hc2).
  split_and!; [congruence | auto | auto].
Qed.

(** What one action that is not a [startProcess] issued [id] can do to the
    record under [id]: nothing if there is none; otherwise remove it, or
    leave a record with the same launch fields. *)
Lemma session_exec (a : Action) (st : State) (id : string) :
  ¬ starts id a ->
  match sessions st !! id with
  | None => sessions (exec a st) !! id = None
  | Some s =>
      forall s' : Session, sessions (exec a st) !! id = Some s' -> evolves s s'
  end.
Proof.
  intros Hstart.
  assert (Hsame : forall st' : State,
            sessions st' = sessions st ->
            match sessions st !! id with
            | None => sessions st' !! id = None
            | Some s =>
                forall s' : Session, sessions st' !! id = Some s' -> evolves s s'
            end).
  { intros st' ->. destruct (sessions st !! id) as [s|]; [|done].
    intros s' [= <-]. apply evolves_refl. }
  action_cases a; simpl exec.
  - unfold startProcess. destruct (pty_spawn h _ _ _); cbn [fst];
      [|by apply Hsame].
    cbn [sessions]. rewrite lookup_insert_ne by done.
    destruct (sessions st !! id) as [s|]; [|done].
    intros s' [= <-]. apply evolves_refl.
  - apply Hsame. unfold onData. by destruct (heap st !! buf).
  - unfold onExit. destruct (sessions st !! sid) as [t|] eqn:Ht;
      [|by apply Hsame].
    cbn [sessions]. destruct (decide (sid = id)) as [<-|Hne].
    + rewrite Ht, lookup_insert_eq. intros s' [= <-].
      split_and!; [done | done |]. intros _. simpl. discriminate.
    + rewrite lookup_insert_ne by done.
      destruct (sessions st !! id) as [s|]; [|done].
      intros s' [= <-]. apply evolves_refl.
  - apply Hsame. unfold writeInput.
    destruct (sessions st !! sid); [|done]. by destruct w.
  - by apply Hsame.
  - by apply Hsame.
  - unfold stopProcess. destruct (sessions st !! sid) as [t|] eqn:Ht;
      [|by apply Hsame].
    destruct k; [|by apply Hsame].
    cbn [fst sessions]. destruct (decide (sid = id)) as [<-|Hne].
    + rewrite Ht, lookup_insert_eq. intros s' [= <-]. by split_and!.
    + rewrite lookup_insert_ne by done.
      destruct (sessions st !! id) as [s|]; [|done].
      intros s' [= <-]. apply evolves_refl.
  - unfold cleanupSessions. destruct (truthy sid); cbn [fst].
    + destruct (sessions st !! default "" sid) as [t|]; [|by apply Hsame].
      destruct (isRunning t); [by apply Hsame|]. cbn [fst sessions].
      destruct (sessions st !! id) as [s|] eqn:Hs.
      * intros s' [_ Hs']%lookup_delete_Some.
        rewrite Hs in Hs'. injection Hs' as <-. apply evolves_refl.
      * apply lookup_delete_None. by right.
    + cbn [sessions]. destruct (sessions st !! id) as [s|] eqn:Hs.
      * intros s' [Hs' _]%map_lookup_filter_Some.
        rewrite Hs in Hs'. injection Hs' as <-. apply evolves_refl.
      * apply map_lookup_filter_None. by left.
Qed.

Lemma session_run (acts : list Action) (id : string) :
  forall st : State,
    Forall (fun a => ¬ starts id a) acts ->
    match sessions st !! id with
    | None => sessions (run acts st) !! id = None
    | Some s =>
        forall s' : Session,
          sessions (run acts st) !! id = Some s' -> evolves s s'
    end.
Proof.
  induction acts as [|a rest IH]; intros st Hacts; simpl.
  - destruct (sessions st !! id) as [s|]; [|done].
    intros s' [= <-]. apply evolves_refl.
  - inversion Hacts as [|? ? Ha Hrest]; subst.
    pose proof (session_exec a st id Ha) as Hstep.
    pose proof (IH (exec a st) Hrest) as Hrun.
    destruct (sessions st !! id) as [s|].
    + intros s' Hs'. destruct (sessions (exec a st) !! id) as [s1|].
      * eapply evolves_trans; [by apply Hstep | by apply Hrun].
      * congruence.
    + by rewrite Hstep in Hrun.
Qed.

(** X14: sessions only come from [startProcess].  An id that is not
    registered stays unknown as long as no [startProcess] call is issued
    that id, whatever else happens; [getSessionOutput], [writeInput] and
    [stopProcess] then answer "Session not found" and change nothing, and
    so does [cleanupSessions], except for the empty string, which it reads
    as no id. *)
Theorem X14_unknown_id_stays_unknown (acts : list Action) (st : State)
    (id : string) :
  sessions st !! id = None ->
  Forall (fun a => ¬ starts id a) acts ->
  sessions (run acts st) !! id = None /\
  (forall fromIndex : option Q,
     getSessionOutput id fromIndex (run acts st) = Error "Session not found") /\
  (forall (data : string) (write : CallOutcome),
     writeInput id data write (run acts st)
     = (run acts st, Resolved (Error "Session not found"))) /\
  (forall kill : CallOutcome,
     stopProcess id kill (run acts st)
     = (run acts st, Error "Session not found")) /\
  (id <> "" ->
   cleanupSessions (Some id) (run acts st)
   = (run acts st, Error "Session not found")) /\
  (id = "" ->
   cleanupSessions (Some id) (run acts st)
   = cleanupSessions None (run acts st)).
Proof.
  intros Hnone Hacts.
  pose proof (session_run acts id st Hacts) as Hrun. rewrite Hnone in Hrun.
  unfold getSessionOutput, writeInput, stopProcess.
  rewrite Hrun. split_and!; try done.
  - intros Hid. unfold cleanupSessions. rewrite (truthy_nonempty _ Hid).
    change (default "" (Some id)) with id. by rewrite Hrun.
  - by intros ->.
Qed.

Lemma X14_witness :
  sessions (run [demoStart; AData 0 "x" "t"] init) !! "other" = None /\
  (forall fromIndex : option Q,
     getSessionOutput "other" fromIndex (run [demoStart; AData 0 "x" "t"] init)
     = Error "Session not found") /\
  (forall (data : string) (write : CallOutcome),
     writeInput "other" data write (run [demoStart; AData 0 "x" "t"] init)
     = (run [demoStart; AData 0 "x" "t"] init,
        Resolved (Error "Session not found"))) /\
  (forall kill : CallOutcome,
     stopProcess "other" kill (run [demoStart; AData 0 "x" "t"] init)
     = (run [demoStart; AData 0 "x" "t"] init, Error "Session not found")) /\
  cleanupSessions (Some "other") (run [demoStart; AData 0 "x" "t"] init)
    = (run [demoStart; AData 0 "x" "t"] init, Error "Session not found").
Proof.
  destruct (X14_unknown_id_stays_unknown [demoStart; AData 0 "x" "t"] init
              "other") as (H1 & H2 & H3 & H4 & H5 & _).
  - reflexivity.
  - repeat constructor; simpl; try discriminate; tauto.
  - split_and!; [exact H1 | exact H2 | exact H3 | exact H4 |].
    apply H5. discriminate.
Defined.

(** X15: as long as no [startProcess] call is issued the same id again, a
    session's record keeps the launch fields it was created with (pid, PTY,
    cwd, cmd, args, cols, rows, start time, output buffer); once it is not
    running it never runs again, and an exit code once set is never
    unset. *)
Theorem X15_record_evolution (acts : list Action) (st : State) (id : string)
    (s s' : Session) :
  sessions st !! id = Some s ->
  Forall (fun a => ¬ starts id a) acts ->
  sessions (run acts st) !! id = Some s' ->
  launch s' = launch s /\
  (isRunning s = false -> isRunning s' = false) /\
  (exitCode s <> JNull -> exitCode s' <> JNull).
Proof.
  intros Hs Hacts Hs'.
  pose proof (session_run acts id st Hacts) as Hrun. rewrite Hs in Hrun.
  exact (Hrun s' Hs').
Qed.

Lemma X15_witness :
  launch (exited demoSession 0 None) = launch demoSession /\
  (isRunning demoSession = false ->
   isRunning (exited demoSession 0 None) = false) /\
  (exitCode demoSession <> JNull ->
   exitCode (exited demoSession 0 None) <> JNull).
Proof.
  apply (X15_record_evolution
           [AData 0 "x" "t"; AStop demoId Returns; AExit demoId 0 None "t"]
           (run [demoStart] init) demoId).
  - reflexivity.
  - repeat constructor; simpl; tauto.
  - reflexivity.
Defined.

(** X16: [writeInput] does not look at [isRunning].  While a session stays
    registered, running or not, input for it is forwarded unchanged to the
    PTY that was spawned for it, the reply is [ok: true], and no record and
    no buffer changes. *)
Theorem X16_input_reaches_own_pty (acts : list Action) (st : State)
    (id data : string) (s s' : Session) :
  sessions st !! id = Some s ->
  Forall (fun a => ¬ starts id a) acts ->
  sessions (run acts st) !! id = Some s' ->
  writeInput id data Returns (run acts st)
  = ({| sessions := sessions (run acts st);
        heap := heap (run acts st);
        ptyCalls := ptyCalls (run acts st) ++ [Write (pty s) data] |},
     Resolved (Ok tt)).
Proof.
  intros Hs Hacts Hs'.
  pose proof (session_run acts id st Hacts) as Hrun. rewrite Hs in Hrun.
  destruct (Hrun s' Hs') as (Hlaunch & _ & _).
  assert (Hpty : pty s' = pty s) by (unfold launch in Hlaunch; congruence).
  unfold writeInput. by rewrite Hs', Hpty.
Qed.

Lemma X16_witness :
  writeInput demoId "ping" Returns
    (run [AExit demoId 0 None "t"] (run [demoStart] init))
  = ({| sessions :=
          sessions (run [AExit demoId 0 None "t"] (run [demoStart] init));
        heap := heap (run [AExit demoId 0 None "t"] (run [demoStart] init));
        ptyCalls :=
          ptyCalls (run [AExit demoId 0 None "t"] (run [demoStart] init))
          ++ [Write (pty demoSession) "ping"] |},
     Resolved (Ok tt)).
Proof.
  apply (X16_input_reaches_own_pty [AExit demoId 0 None "t"]
           (run [demoStart] init) demoId "ping" demoSession
           (exited demoSession 0 None)).
  - reflexivity.
  - repeat constructor; simpl; tauto.
  - reflexivity.
Defined.

(** * The test client's line framing *)

Section Framing.

Import TestClient.

Lemma append_assoc (a b c : string) : (a +:+ b) +:+ c = a +:+ (b +:+ c).
Proof.
  induction a as [|x a IH]; [reflexivity | exact (f_equal (String x) IH)].
Qed.

Lemma append_empty_r (a : string) : a +:+ "" = a.
Proof.
  induction a as [|x a IH]; [reflexivity | exact (f_equal (String x) IH)].
Qed.

Lemma split_nonempty (s : string) : split s <> [].
Proof.
  destruct s as [|c s]; simpl; [done|].
  destruct (Ascii.eqb c "010"); [done|]. by destruct (split s).
Qed.

Lemma pop_cons (x : string) (l : list string) :
  l <> [] -> pop (x :: l) = (x :: (pop l).1, (pop l).2).
Proof.
  destruct l as [|y l]; [done|]. intros _.
  change (pop (x :: y :: l))
    with (let (l0, b) := pop (y :: l) in (x :: l0, b)).
  by destruct (pop (y :: l)).
Qed.

Lemma pop_app (l1 l2 : list string) :
  l2 <> [] -> pop (l1 ++ l2) = (l1 ++ (pop l2).1, (pop l2).2).
Proof.
  intros Hne. induction l1 as [|x l1 IH]; cbn [app].
  - by destruct (pop l2).
  - rewrite pop_cons, IH; [done|]. by destruct l1, l2.
Qed.

Lemma pop_restore (l : list string) :
  l <> [] -> (pop l).1 ++ [(pop l).2] = l.
Proof.
  induction l as [|x l IH]; [done|]. intros _.
  destruct l as [|y l]; [done|].
  rewrite pop_cons by done. cbn [fst snd app]. by rewrite IH.
Qed.

Lemma split_other (c : ascii) (s : string) :
  Ascii.eqb c "010" = false ->
  split (String c s)
  = match split s with
    | piece :: pieces => String c piece :: pieces
    | [] => [String c ""]
    end.
Proof. intros Hc. cbn [split]. by rewrite Hc. Qed.

Lemma split_feed (c : ascii) (s : string) :
  Ascii.eqb c "010" = true -> split (String c s) = "" :: split s.
Proof. intros Hc. cbn [split]. by rewrite Hc. Qed.

(** Splitting a text in two places commutes with splitting its parts: the
    unfinished last piece of the first part is continued by the second. *)
Lemma split_append (a b : string) :
  split (a +:+ b)
  = (pop (split a)).1 ++ split ((pop (split a)).2 +:+ b).
Proof.
  induction a as [|c a IH]; [done|].
  change (String c a +:+ b) with (String c (a +:+ b)).
  destruct (Ascii.eqb c "010") eqn:Hc.
  - rewrite !split_feed by done.
    rewrite pop_cons by apply split_nonempty. cbn [fst snd app].
    by rewrite IH.
  - rewrite (split_other c (a +:+ b)), (split_other c a) by done. rewrite IH.
    destruct (split a) as [|h [|t1 t]] eqn:Ha.
    + by destruct (split_nonempty a).
    + cbn [pop fst snd app].
      change (String c h +:+ b) with (String c (h +:+ b)).
      by rewrite split_other.
    + rewrite (pop_cons h), (pop_cons (String c h)) by done.
      cbn [fst snd app]. done.
Qed.

Lemma split_lineFree (s : string) : lineFree s -> split s = [s].
Proof.
  induction s as [|c s IH]; [done|]. intros [Hc Hs].
  rewrite split_other by done. by rewrite IH.
Qed.

Lemma split_pieces_lineFree (s : string) : Forall lineFree (split s).
Proof.
  induction s as [|c s IH]; [by repeat constructor|].
  destruct (Ascii.eqb c "010") eqn:Hc.
  - rewrite split_feed by done. by constructor.
  - rewrite split_other by done.
    destruct (split s) as [|h t]; [by repeat constructor|].
    inversion IH; subst. by repeat constructor.
Qed.

Lemma join_split (s : string) : String.concat (String "010" "") (split s) = s.
Proof.
  induction s as [|c s IH]; [done|].
  destruct (Ascii.eqb c "010") eqn:Hc.
  - rewrite split_feed by done. apply Ascii.eqb_eq in Hc as ->.
    pose proof (split_nonempty s) as Hne.
    destruct (split s) as [|h t]; [done|].
    cbn [String.concat]. cbn [String.concat] in IH. by rewrite <- IH.
  - rewrite split_other by done.
    destruct (split s) as [|h t] eqn:Hs; [by destruct (split_nonempty s)|].
    destruct t as [|t1 t].
    + cbn [String.concat] in *. by rewrite IH.
    + cbn [String.concat] in *. rewrite <- IH. done.
Qed.

Lemma onStdout_lineFree (responseBuffer data : string) :
  Forall lineFree (onStdout responseBuffer data).1 /\
  lineFree (onStdout responseBuffer data).2.
Proof.
  unfold onStdout.
  pose proof (split_nonempty (responseBuffer +:+ data)) as Hne.
  pose proof (split_pieces_lineFree (responseBuffer +:+ data)) as Hfree.
  rewrite <- (pop_restore _ Hne) in Hfree.
  apply Forall_app in Hfree as [Hlines Hlast]. split; [done|].
  by inversion Hlast.
Qed.

(** X17: the listener loses nothing and invents nothing.  The lines it hands
    on and the buffer it keeps, joined by line feeds, are exactly the old
    buffer followed by the chunk; no line handed on and no kept buffer
    contains a line feed. *)
Theorem X17_framing_round_trip (responseBuffer data : string) :
  String.concat (String "010" "")
    ((onStdout responseBuffer data).1 ++ [(onStdout responseBuffer data).2])
    = responseBuffer +:+ data /\
  Forall lineFree (onStdout responseBuffer data).1 /\
  lineFree (onStdout responseBuffer data).2.
Proof.
  split; [|apply onStdout_lineFree].
  unfold onStdout. rewrite pop_restore by apply split_nonempty.
  apply join_split.
Qed.

(** Two chunks in a row give the lines of their concatenation. *)
Lemma onStdout_append (buf c1 c2 : string) :
  onStdout buf (c1 +:+ c2)
  = ((onStdout buf c1).1 ++ (onStdout (onStdout buf c1).2 c2).1,
     (onStdout (onStdout buf c1).2 c2).2).
Proof.
  unfold onStdout. rewrite <- append_assoc, split_append.
  apply pop_app, split_nonempty.
Qed.

Lemma feed_concat (toString : list Byte.byte -> string)
    (responseBuffer : string) (chunks : list (list Byte.byte)) :
  lineFree responseBuffer ->
  feed toString responseBuffer chunks
  = onStdout responseBuffer (decoded toString chunks).
Proof.
  revert responseBuffer. unfold decoded.
  induction chunks as [|c chunks IH]; intros buf Hbuf.
  - cbn [feed map String.concat]. unfold onStdout.
    by rewrite append_empty_r, split_lineFree.
  - assert (Hjoin : String.concat "" (map toString (c :: chunks))
                    = toString c +:+ String.concat "" (map toString chunks)).
    { destruct chunks as [|c' chunks]; cbn [map String.concat].
      - by rewrite append_empty_r.
      - done. }
    rewrite Hjoin, onStdout_append. cbn [feed].
    destruct (onStdout_lineFree buf (toString c)) as [_ Hb].
    destruct (onStdout buf (toString c)) as [lines b] eqn:Hc.
    cbn [fst snd] in *. rewrite (IH b Hb).
    by destruct (onStdout b (String.concat "" (map toString chunks))).
Qed.

(** X18: the lines depend only on the concatenation of the decoded chunks.
    Each chunk is decoded on its own by [data.toString()]; fed chunk by
    chunk, starting from a buffer without a line feed (such as the initial
    empty one), the listener hands on the same lines and ends with the same
    buffer as one call on the concatenation of the decoded texts.  So a cut
    of the server's output matters only through what [toString] makes of
    the pieces. *)
Theorem X18_chunking_is_irrelevant (toString : list Byte.byte -> string)
    (responseBuffer : string) (chunks : list (list Byte.byte)) :
  lineFree responseBuffer ->
  feed toString responseBuffer chunks
  = onStdout responseBuffer (decoded toString chunks).
Proof. apply feed_concat. Qed.

Lemma X18_witness :
  feed String.string_of_list_byte "" abChunks
  = onStdout "" (decoded String.string_of_list_byte abChunks).
Proof.
  apply (X18_chunking_is_irrelevant String.string_of_list_byte "" abChunks).
  exact I.
Defined.

Lemma split_line (m rest : string) :
  lineFree m -> split (m +:+ String "010" rest) = m :: split rest.
Proof.
  induction m as [|c m IH]; intros Hm.
  - change ("" +:+ String "010" rest) with (String "010" rest).
    by rewrite split_feed.
  - destruct Hm as [Hc Hm].
    change (String c m +:+ String "010" rest)
      with (String c (m +:+ String "010" rest)).
    rewrite split_other by done. by rewrite IH.
Qed.

Lemma onStdout_framed (messages : list string) :
  Forall lineFree messages -> onStdout "" (framed messages) = (messages, "").
Proof.
  unfold onStdout. change ("" +:+ framed messages) with (framed messages).
  induction messages as [|m rest IH]; intros Hfree; [done|].
  inversion Hfree; subst. cbn [framed].
  rewrite split_line, pop_cons by (done || apply split_nonempty).
  by rewrite IH.
Qed.

(** X19: the listener undoes the framing of the sender.  When the decoded
    chunks, one after the other, make up a sequence of messages, each
    without a line feed and each followed by one, the listener hands on
    exactly these messages, in order, and is left with an empty buffer. *)
Theorem X19_framing_inverts_send (toString : list Byte.byte -> string)
    (messages : list string) (chunks : list (list Byte.byte)) :
  Forall lineFree messages ->
  decoded toString chunks = framed messages ->
  feed toString "" chunks = (messages, "").
Proof.
  intros Hfree Hcut. rewrite feed_concat by exact I.
  rewrite Hcut. by apply onStdout_framed.
Qed.

Lemma X19_witness :
  feed String.string_of_list_byte "" heyChunks = (["hey"; "you"], "").
Proof.
  apply (X19_framing_inverts_send String.string_of_list_byte ["hey"; "you"]
           heyChunks).
  - repeat constructor.
  - reflexivity.
Defined.

End Framing.
